(** * University databank: the SQLite scripts, embedded and verified

    The repository consists of three Python scripts that drive an SQLite
    database through the [sqlite3] module: [helpsheet.py] (a tutorial whose
    Section 8 moves 0.2 grade points from one student to another inside a
    try/except block), and [main.py] / [testtable.py] (schema creation).

    The scripts are sequences of store calls, so the embedding has two
    layers:
    - [Sqlite]: the connection object as the scripts use it (execute,
      commit, rollback, close, the implicit transaction that Python opens
      before a data-modifying statement) together with a small state and
      exception monad in which the scripts are written;
    - [Helpsheet] and [University]: the statements of each script, their
      meaning on the tables they touch, and the scripts themselves. *)

From Stdlib Require Import ZArith Bool List String PrimFloat Lia.
From stdpp Require Import base gmap strings.
Import ListNotations.

Set Warnings "-inexact-float".
Local Open Scope string_scope.
Local Open Scope Z_scope.

(** * The store, as seen through a [sqlite3] connection *)

Module Sqlite.

(** Errors of class [sqlite3.Error].  The first three are raised as
    [OperationalError], [UniqueViolation] as [IntegrityError];
    [DatabaseFull] is SQLITE_FULL, and [ResultCode] stands for a failure
    that comes from outside the statement (busy, I/O, interrupt, ...). *)
Inductive sqlite_error : Type :=
| NoSuchTable (table : string)
| TableAlreadyExists (table : string)
| SyntaxErrorNear (token : string)
| UniqueViolation (column : string)
| DatabaseFull
| ResultCode (code : Z).

(** What a Python statement can raise here: a [sqlite3.Error], or the
    [OverflowError] of the binding layer when an [int] parameter does not
    fit SQLite's 64-bit INTEGER. *)
Inductive exception : Type :=
| Sqlite3Error (e : sqlite_error)
| OverflowError.

(** Lines the scripts print in and around the transfer of Section 8. *)
Inductive message : Type :=
| Heading (text : string)
| Balance (name : string) (gpa : option float)
| TransactionSuccessful
| TransactionFailed (e : sqlite_error)
| AllChangesRolledBack.

(** [rowcount] and, for an INSERT, the rowid of the new row. *)
Record cursor_info : Type := CursorInfo {
  rowcount : Z;
  lastrowid : option Z
}.

(** The statements a script runs are given meaning by an [Engine]:
    [compile] is [sqlite3_prepare] (it fails on a missing table, an
    existing table or a syntax error), [bind_parameters] is the binding of
    the Python arguments, [step] runs the compiled statement. *)
Class Engine (database statement : Type) : Type := {
  compile : statement -> database -> option sqlite_error;
  is_dml : statement -> bool;
  bind_parameters : statement -> option exception;
  step : statement -> database -> sqlite_error + (database * cursor_info)
}.

Section Connection.

Context {database statement : Type} `{!Engine database statement}.

(** A connection: [durable] is the content of the database file,
    [transaction] the content as seen inside the open transaction, if one
    is open. *)
Record connection : Type := Connection {
  durable : database;
  transaction : option database
}.

Definition working (c : connection) : database :=
  match transaction c with
  | Some db => db
  | None => durable c
  end.

Definition in_transaction (c : connection) : bool :=
  match transaction c with
  | Some _ => true
  | None => false
  end.

(** [sqlite3.connect(path)] on a file whose content is [db]. *)
Definition connect (db : database) : connection :=
  {| durable := db; transaction := None |}.

(** The implicit BEGIN. *)
Definition begin (c : connection) : connection :=
  {| durable := durable c; transaction := Some (working c) |}.

(** The effect of a statement that ran to completion: inside a transaction
    it stays pending, in autocommit mode it reaches the file at once. *)
Definition write (db : database) (c : connection) : connection :=
  match transaction c with
  | Some _ => {| durable := durable c; transaction := Some db |}
  | None => {| durable := db; transaction := None |}
  end.

Definition do_commit (c : connection) : connection :=
  {| durable := working c; transaction := None |}.

Definition do_rollback (c : connection) : connection :=
  {| durable := durable c; transaction := None |}.

(** What the run of a script leaves behind, in order. *)
Inductive event : Type :=
| Executed (s : statement)
| Queried
| Committed
| RolledBack
| Closed
| Printed (m : message).

(** The state a script runs in: its connection, the failures the
    environment will inject into the coming store calls (one entry per
    call that reaches the engine, [None] for a call that goes through),
    and the events so far. *)
Record world : Type := World {
  conn : connection;
  faults : list (option sqlite_error);
  log : list event
}.

Definition set_conn (c : connection) (w : world) : world :=
  {| conn := c; faults := faults w; log := log w |}.

Definition record_event (e : event) (w : world) : world :=
  {| conn := conn w; faults := faults w; log := log w ++ [e] |}.

Definition next_fault (w : world) : option sqlite_error * world :=
  match faults w with
  | [] => (None, w)
  | f :: fs => (f, {| conn := conn w; faults := fs; log := log w |})
  end.

(** ** The monad of scripts *)

Definition M (A : Type) : Type := world -> (exception + A) * world.

Definition ret {A : Type} (a : A) : M A := fun w => (inr a, w).

Definition bind {A B : Type} (m : M A) (k : A -> M B) : M B :=
  fun w =>
    match m w with
    | (inl e, w') => (inl e, w')
    | (inr a, w') => k a w'
    end.

Definition raise {A : Type} (e : exception) : M A := fun w => (inl e, w).

(** [try: body except sqlite3.Error as error: handler error].  Any other
    exception passes through. *)
Definition try_except {A : Type} (body : M A) (handler : sqlite_error -> M A) : M A :=
  fun w =>
    match body w with
    | (inl (Sqlite3Error e), w') => handler e w'
    | r => r
    end.

Definition print (m : message) : M unit :=
  fun w => (inr tt, record_event (Printed m) w).

(** [cursor.execute(statement, parameters)] for a statement that changes
    the database.  In Python's default transaction handling the statement
    is compiled first, a transaction is opened before a data-modifying
    statement when none is open, then the parameters are bound and the
    statement runs.  A statement that fails leaves the tables as they were
    and, here, the transaction open; after a full disk or an I/O error
    SQLite has by then rolled the transaction back itself, which leaves
    the same file and is what the handlers of the script do next. *)
Definition execute (s : statement) : M cursor_info :=
  fun w0 =>
    let w := record_event (Executed s) w0 in
    match compile s (working (conn w)) with
    | Some e => (inl (Sqlite3Error e), w)
    | None =>
        let c := if is_dml s then begin (conn w) else conn w in
        match bind_parameters s with
        | Some e => (inl e, set_conn c w)
        | None =>
            let (fault, w1) := next_fault w in
            match fault with
            | Some e => (inl (Sqlite3Error e), set_conn c w1)
            | None =>
                match step s (working c) with
                | inl e => (inl (Sqlite3Error e), set_conn c w1)
                | inr (db, info) => (inr info, set_conn (write db c) w1)
                end
            end
        end
    end.

(** [cursor.execute(select); cursor.fetchall()]: a SELECT is a function of
    the database as the connection sees it. *)
Definition query {A : Type} (q : database -> sqlite_error + A) : M A :=
  fun w0 =>
    let w := record_event Queried w0 in
    match q (working (conn w)) with
    | inl e => (inl (Sqlite3Error e), w)
    | inr a =>
        let (fault, w1) := next_fault w in
        match fault with
        | Some e => (inl (Sqlite3Error e), w1)
        | None => (inr a, w1)
        end
    end.

(** [connection.commit()]: nothing to do outside a transaction. *)
Definition commit : M unit :=
  fun w0 =>
    let w := record_event Committed w0 in
    if in_transaction (conn w) then
      let (fault, w1) := next_fault w in
      match fault with
      | Some e => (inl (Sqlite3Error e), w1)
      | None => (inr tt, set_conn (do_commit (conn w1)) w1)
      end
    else (inr tt, w).

(** [connection.rollback()]. *)
Definition rollback : M unit :=
  fun w0 =>
    let w := record_event RolledBack w0 in
    (inr tt, set_conn (do_rollback (conn w)) w).

(** [connection.close()]: an open transaction is abandoned. *)
Definition close : M unit :=
  fun w0 =>
    let w := record_event Closed w0 in
    (inr tt, set_conn (do_rollback (conn w)) w).

(** A fresh process opening the file, with the given failures ahead. *)
Definition start (db : database) (fs : list (option sqlite_error)) : world :=
  {| conn := connect db; faults := fs; log := [] |}.

(** The lines printed during a run. *)
Definition lines (l : list event) : list message :=
  flat_map (fun e => match e with Printed m => [m] | _ => [] end) l.

Definition printed (w : world) : list message := lines (log w).

End Connection.

Arguments connection : clear implicits.
Arguments event : clear implicits.
Arguments world : clear implicits.
Arguments M : clear implicits.

End Sqlite.

Declare Scope script_scope.
Delimit Scope script_scope with script.
Notation "x <- m ;; k" := (Sqlite.bind m (fun x => k))
  (at level 100, m at next level, k at level 200, right associativity) : script_scope.
Notation "m ;; k" := (Sqlite.bind m (fun _ => k))
  (at level 100, k at level 200, right associativity) : script_scope.

Local Open Scope script_scope.

(** * helpsheet.py *)

Module Helpsheet.

Import Sqlite.

(** ** Values of the [students] columns *)

Definition int64_min : Z := - 2 ^ 63.
Definition int64_max : Z := 2 ^ 63 - 1.

Definition fits_int64 (n : Z) : bool := (int64_min <=? n) && (n <=? int64_max).

(** A Python [float] bound to a parameter: SQLite keeps every double but
    NaN, which it turns into NULL. *)
Definition bind_real (f : float) : option float :=
  if PrimFloat.is_nan f then None else Some f.

(** A value written into the REAL column [gpa].  A real without fractional
    part is stored as an integer and read back as a real, so that a
    negative zero comes back as zero. *)
Definition real_affinity (v : option float) : option float :=
  match v with
  | Some f =>
      if PrimFloat.is_nan f then None
      else if PrimFloat.eqb f 0%float then Some 0%float
      else Some f
  | None => None
  end.

(** [a + b] and [a - b] on REAL operands: NULL when an operand is NULL or
    the result is not a number. *)
Definition sql_add (a b : option float) : option float :=
  match a, b with
  | Some x, Some y => bind_real (PrimFloat.add x y)
  | _, _ => None
  end.

Definition sql_sub (a b : option float) : option float :=
  match a, b with
  | Some x, Some y => bind_real (PrimFloat.sub x y)
  | _, _ => None
  end.

(** [a < b] in a WHERE clause: a comparison with NULL selects nothing. *)
Definition sql_lt (a b : option float) : bool :=
  match a, b with
  | Some x, Some y => PrimFloat.ltb x y
  | _, _ => false
  end.

Definition sql_int_gt (a : option Z) (b : Z) : bool :=
  match a with
  | Some x => b <? x
  | None => false
  end.

(** ** The table

<<
CREATE TABLE students (
    id INTEGER PRIMARY KEY AUTOINCREMENT,
    name TEXT NOT NULL,
    email TEXT UNIQUE,
    age INTEGER,
    gpa REAL,
    enrolled INTEGER DEFAULT 1
)
>>
    A row holds a value of the declared type in each column; the columns
    without NOT NULL may hold NULL. *)
Record student : Type := Student {
  id : Z;
  name : string;
  email : option string;
  age : option Z;
  gpa : option float;
  enrolled : option Z
}.

(** The rows in rowid order, and the AUTOINCREMENT counter that SQLite
    keeps for the table in [sqlite_sequence]. *)
Record table : Type := Table {
  rows : list student;
  sequence : Z
}.

(** The database file [my_database.db], as far as the script of Sections 2
    to 8 is concerned: the [students] table, when it exists. *)
Definition database : Type := option table.

Definition with_gpa (g : option float) (r : student) : student :=
  {| id := id r; name := name r; email := email r; age := age r;
     gpa := real_affinity g; enrolled := enrolled r |}.

Definition name_is (n : string) (r : student) : bool := String.eqb (name r) n.

Definition email_is (e : string) (r : student) : bool :=
  match email r with
  | Some e' => String.eqb e' e
  | None => false
  end.

Definition count (p : student -> bool) (t : table) : Z :=
  Z.of_nat (length (List.filter p (rows t))).

(** [UPDATE students SET gpa = <f row> WHERE <p row>]. *)
Definition update_gpa (p : student -> bool) (f : student -> option float) (t : table)
  : table * cursor_info :=
  ({| rows := map (fun r => if p r then with_gpa (f r) r else r) (rows t);
      sequence := sequence t |},
   {| rowcount := count p t; lastrowid := None |}).

(** [DELETE FROM students WHERE <p row>]. *)
Definition delete_where (p : student -> bool) (t : table) : table * cursor_info :=
  ({| rows := List.filter (fun r => negb (p r)) (rows t); sequence := sequence t |},
   {| rowcount := count p t; lastrowid := None |}).

Definition largest_rowid (t : table) : Z :=
  fold_right Z.max 0 (map id (rows t)).

(** AUTOINCREMENT: one more than the largest rowid the table ever had. *)
Definition next_rowid (t : table) : Z :=
  Z.max (sequence t) (largest_rowid t) + 1.

(** [INSERT INTO students (name, email, age, gpa) VALUES (?, ?, ?, ?)]. *)
Definition insert_student (n e : string) (a : Z) (g : float) (t : table)
  : sqlite_error + (table * cursor_info) :=
  let i := next_rowid t in
  if int64_max <? i then inl DatabaseFull
  else if existsb (email_is e) (rows t) then inl (UniqueViolation "students.email")
  else
    inr ({| rows := rows t ++
                    [{| id := i; name := n; email := Some e; age := Some a;
                        gpa := real_affinity (bind_real g); enrolled := Some 1 |}];
            sequence := i |},
         {| rowcount := 1; lastrowid := Some i |}).

(** ** The statements of the script that change the database *)

Inductive statement : Type :=
| DropTableIfExistsStudents
| CreateTableStudents
| InsertStudent (name email : string) (age : Z) (gpa : float)
| SetGpaWhereName (gpa : float) (name : string)
| AddGpaWhereAgeAbove (delta : float) (age : Z)
| SubGpaWhereName (delta : float) (name : string)
| AddGpaWhereName (delta : float) (name : string)
| DeleteWhereName (name : string)
| DeleteWhereGpaBelow (gpa : float).

Definition compile_statement (s : statement) (db : database) : option sqlite_error :=
  match s, db with
  | DropTableIfExistsStudents, _ => None
  | CreateTableStudents, Some _ => Some (TableAlreadyExists "students")
  | CreateTableStudents, None => None
  | _, Some _ => None
  | _, None => Some (NoSuchTable "students")
  end.

Definition statement_is_dml (s : statement) : bool :=
  match s with
  | DropTableIfExistsStudents | CreateTableStudents => false
  | _ => true
  end.

Definition bind_statement (s : statement) : option exception :=
  match s with
  | InsertStudent _ _ a _ | AddGpaWhereAgeAbove _ a =>
      if fits_int64 a then None else Some OverflowError
  | _ => None
  end.

Definition on_table (db : database) (f : table -> table * cursor_info)
  : sqlite_error + (database * cursor_info) :=
  match db with
  | Some t => let (t', info) := f t in inr (Some t', info)
  | None => inl (NoSuchTable "students")
  end.

Definition step_statement (s : statement) (db : database)
  : sqlite_error + (database * cursor_info) :=
  match s with
  | DropTableIfExistsStudents =>
      inr (None, {| rowcount := -1; lastrowid := None |})
  | CreateTableStudents =>
      inr (Some {| rows := []; sequence := 0 |}, {| rowcount := -1; lastrowid := None |})
  | InsertStudent n e a g =>
      match db with
      | Some t =>
          match insert_student n e a g t with
          | inl err => inl err
          | inr (t', info) => inr (Some t', info)
          end
      | None => inl (NoSuchTable "students")
      end
  | SetGpaWhereName g n =>
      on_table db (update_gpa (name_is n) (fun _ => bind_real g))
  | AddGpaWhereAgeAbove d a =>
      on_table db (update_gpa (fun r => sql_int_gt (age r) a)
                              (fun r => sql_add (gpa r) (bind_real d)))
  | SubGpaWhereName d n =>
      on_table db (update_gpa (name_is n) (fun r => sql_sub (gpa r) (bind_real d)))
  | AddGpaWhereName d n =>
      on_table db (update_gpa (name_is n) (fun r => sql_add (gpa r) (bind_real d)))
  | DeleteWhereName n =>
      on_table db (delete_where (name_is n))
  | DeleteWhereGpaBelow g =>
      on_table db (delete_where (fun r => sql_lt (gpa r) (bind_real g)))
  end.

#[export] Instance helpsheet_engine : Engine database statement := {|
  compile := compile_statement;
  is_dml := statement_is_dml;
  bind_parameters := bind_statement;
  step := step_statement
|}.

Abbreviation script := (M database statement).

(** ** The SELECT statements *)

(** [SELECT ... FROM students WHERE <p row>], the rows handed to [f]. *)
Definition select_where {A : Type} (p : student -> bool) (f : list student -> A)
  (db : database) : sqlite_error + A :=
  match db with
  | Some t => inr (f (List.filter p (rows t)))
  | None => inl (NoSuchTable "students")
  end.

(** [SELECT * FROM students]. *)
Definition select_all : database -> sqlite_error + list student :=
  select_where (fun _ => true) (fun rs => rs).

(** [SELECT * FROM students WHERE id = ?] and [... WHERE name = ?]. *)
Definition select_by_id (i : Z) : database -> sqlite_error + list student :=
  select_where (fun r => id r =? i) (fun rs => rs).

Definition select_by_name (n : string) : database -> sqlite_error + list student :=
  select_where (name_is n) (fun rs => rs).

(** [SELECT name, gpa FROM students WHERE name IN (?, ?)]. *)
Definition select_name_gpa_in (n1 n2 : string)
  : database -> sqlite_error + list (string * option float) :=
  select_where (fun r => name_is n1 r || name_is n2 r)
               (map (fun r => (name r, gpa r))).

(** A SELECT whose rows are printed and not used again. *)
Definition select_and_print : database -> sqlite_error + unit :=
  select_where (fun _ => true) (fun _ => tt).

(** ** The script *)

Fixpoint executemany (ss : list statement) : script unit :=
  match ss with
  | [] => ret tt
  | s :: ss' => execute s;; executemany ss'
  end.

Fixpoint repeat_query (n : nat) : script unit :=
  match n with
  | O => ret tt
  | S n' => query select_and_print;; repeat_query n'
  end.

Fixpoint print_balances (rs : list (string * option float)) : script unit :=
  match rs with
  | [] => ret tt
  | (n, g) :: rs' => print (Balance n g);; print_balances rs'
  end.

(** Section 2, lines 47-72. *)
Definition section2 : script unit :=
  execute DropTableIfExistsStudents;;
  execute CreateTableStudents;;
  commit.

Definition students_list : list statement :=
  [ InsertStudent "Bob Smith" "bob@email.com" 22 3.5;
    InsertStudent "Carol White" "carol@email.com" 21 3.9;
    InsertStudent "David Brown" "david@email.com" 23 3.2;
    InsertStudent "Eve Davis" "eve@email.com" 20 3.7 ].

(** Section 3, lines 86-117. *)
Definition section3 : script unit :=
  execute (InsertStudent "Alice Johnson" "alice@email.com" 20 3.8);;
  executemany students_list;;
  execute (InsertStudent "Frank Miller" "frank@email.com" 22 3.6);;
  commit.

(** Section 4, lines 129-217: ten SELECTs. *)
Definition section4 : script unit := repeat_query 10.

(** Section 5, lines 230-255. *)
Definition section5 : script unit :=
  execute (SetGpaWhereName 3.9 "Bob Smith");;
  execute (AddGpaWhereAgeAbove 0.1 22);;
  query select_and_print;;
  commit.

(** Section 6, lines 268-284. *)
Definition section6 : script unit :=
  execute (InsertStudent "Test Student" "test@email.com" 19 2.5);;
  commit;;
  execute (DeleteWhereName "Test Student");;
  execute (DeleteWhereGpaBelow 3.0);;
  commit.

(** Section 7, lines 302-325: one SELECT. *)
Definition section7 : script unit := repeat_query 1.

(** The try/except block of Section 8, lines 347-365, for any two names
    and any amount; the script runs it at ["Alice Johnson"], ["Bob Smith"]
    and [0.2]. *)
Definition transfer_operation (source destination : string) (amount : float)
  : script unit :=
  try_except
    (execute (SubGpaWhereName amount source);;
     execute (AddGpaWhereName amount destination);;
     commit;;
     print TransactionSuccessful)
    (fun error =>
       rollback;;
       print (TransactionFailed error);;
       print AllChangesRolledBack).

Definition show_balances (heading : string) (n1 n2 : string) : script unit :=
  print (Heading heading);;
  rs <- query (select_name_gpa_in n1 n2);;
  print_balances rs.

(** Section 8, lines 341-371. *)
Definition section8 : script unit :=
  show_balances "Before: " "Alice Johnson" "Bob Smith";;
  transfer_operation "Alice Johnson" "Bob Smith" 0.2;;
  show_balances "After: " "Alice Johnson" "Bob Smith".

(** Sections 2 to 7, and the script up to the end of Section 8. *)
Definition before_section8 : script unit :=
  section2;; section3;; section4;; section5;; section6;; section7.

Definition helpsheet : script unit :=
  before_section8;; section8.

(** ** Vocabulary of the properties *)

(** The first and the second UPDATE of the transfer, as functions of the
    table. *)
Definition debit (amount : float) (source : string) (t : table) : table :=
  fst (update_gpa (name_is source) (fun r => sql_sub (gpa r) (bind_real amount)) t).

Definition credit (amount : float) (destination : string) (t : table) : table :=
  fst (update_gpa (name_is destination) (fun r => sql_add (gpa r) (bind_real amount)) t).

Definition transferred (source destination : string) (amount : float) (t : table)
  : table :=
  credit amount destination (debit amount source t).

(** One of the two UPDATEs of the transfer raises [e]. *)
Definition mutation_raises (source destination : string) (amount : float)
  (w : world database statement) (e : sqlite_error) : Prop :=
  fst (execute (SubGpaWhereName amount source) w) = inl (Sqlite3Error e) \/
  exists info w1,
    execute (SubGpaWhereName amount source) w = (inr info, w1) /\
    fst (execute (AddGpaWhereName amount destination) w1) = inl (Sqlite3Error e).

(** Nothing fails from outside in the next [n] store calls. *)
Definition undisturbed (n : nat) (w : world database statement) : Prop :=
  Forall (fun f => f = None) (firstn n (faults w)).

(** [r'] is [r] up to its [gpa], and is [r] when its name is neither of
    the two keys. *)
Definition same_but_gpa (source destination : string) (r r' : student) : Prop :=
  id r' = id r /\ name r' = name r /\ email r' = email r /\ age r' = age r /\
  enrolled r' = enrolled r /\
  (name r <> source -> name r <> destination -> r' = r).

(** The same for the whole database. *)
Definition framed (source destination : string) (db db' : database) : Prop :=
  match db, db' with
  | Some t, Some t' =>
      sequence t' = sequence t /\
      Forall2 (same_but_gpa source destination) (rows t) (rows t')
  | None, None => True
  | _, _ => False
  end.

(** The balances of the rows that a key resolves to. *)
Definition balances (key : string) (db : database) : list (option float) :=
  match db with
  | Some t => map gpa (List.filter (name_is key) (rows t))
  | None => []
  end.

(** [amount <= balance], as SQL compares REAL values. *)
Definition covers (balance : option float) (amount : float) : bool :=
  match balance with
  | Some b => PrimFloat.leb amount b
  | None => false
  end.

(** Python's [==] on a value read back against the float that was
    written. *)
Definition reads_back_equal (written : float) (read : option float) : bool :=
  match read with
  | Some f => PrimFloat.eqb written f
  | None => false
  end.

(** The rows of Alice Johnson and Bob Smith, and the whole table, as
    Sections 2 to 7 leave them. *)
Definition alice : student :=
  {| id := 1; name := "Alice Johnson"; email := Some "alice@email.com";
     age := Some 20; gpa := Some 3.8%float; enrolled := Some 1 |}.

Definition bob : student :=
  {| id := 2; name := "Bob Smith"; email := Some "bob@email.com";
     age := Some 22; gpa := Some 3.9%float; enrolled := Some 1 |}.

Definition students_at_section8 : table :=
  {| rows :=
       [ alice;
         bob;
         {| id := 3; name := "Carol White"; email := Some "carol@email.com";
            age := Some 21; gpa := Some 3.9%float; enrolled := Some 1 |};
         {| id := 4; name := "David Brown"; email := Some "david@email.com";
            age := Some 23; gpa := Some 3.3000000000000003%float; enrolled := Some 1 |};
         {| id := 5; name := "Eve Davis"; email := Some "eve@email.com";
            age := Some 20; gpa := Some 3.7%float; enrolled := Some 1 |};
         {| id := 6; name := "Frank Miller"; email := Some "frank@email.com";
            age := Some 22; gpa := Some 3.6%float; enrolled := Some 1 |} ];
     sequence := 7 |}.

(** The script arriving at Section 8, with the given failures ahead. *)
Definition at_section8 (fs : list (option sqlite_error)) : world database statement :=
  start (Some students_at_section8) fs.

End Helpsheet.

(** * main.py and testtable.py *)

Module University.

Import Sqlite.

(** What stands between the parentheses of a CREATE TABLE, in the order of
    the text: a column with its type and column constraints, or a table
    constraint (FOREIGN KEY, CHECK, ...). *)
Inductive table_item : Type :=
| Column (name : string) (definition : string)
| TableConstraint (text : string).

(** [CREATE TABLE IF NOT EXISTS table_name (items)]. *)
Record statement : Type := CreateTableIfNotExists {
  table_name : string;
  items : list table_item
}.

(** The tables of the file that a CREATE TABLE has named, each with the
    definition it was created from.  The table sqlite_sequence, which
    SQLite adds for its own use with the first AUTOINCREMENT table, is not
    listed. *)
Abbreviation database := (gmap string (list table_item)).

(** SQLite's grammar puts every column definition before the first table
    constraint; the parser stops at a column name that comes later. *)
Fixpoint misplaced_column (after_constraint : bool) (its : list table_item)
  : option string :=
  match its with
  | [] => None
  | Column n _ :: rest =>
      if after_constraint then Some n else misplaced_column false rest
  | TableConstraint _ :: rest => misplaced_column true rest
  end.

Definition compile_statement (s : statement) (db : database) : option sqlite_error :=
  match misplaced_column false (items s) with
  | Some token => Some (SyntaxErrorNear token)
  | None => None
  end.

(** IF NOT EXISTS: a table of that name is left as it is, whatever its
    definition. *)
Definition create_if_not_exists (s : statement) (db : database) : database :=
  match db !! table_name s with
  | Some _ => db
  | None => <[table_name s := items s]> db
  end.

Definition step_statement (s : statement) (db : database)
  : sqlite_error + (database * cursor_info) :=
  inr (create_if_not_exists s db, {| rowcount := -1; lastrowid := None |}).

#[export] Instance university_engine : Engine database statement := {|
  compile := compile_statement;
  is_dml := fun _ => false;
  bind_parameters := fun _ => None;
  step := step_statement
|}.

Abbreviation script := (M database statement).

(** main.py lines 12-18, testtable.py lines 6-12. *)
Definition colleges : statement :=
  {| table_name := "colleges";
     items :=
       [ Column "CollegeID" "INTEGER PRIMARY KEY AUTOINCREMENT";
         Column "CollegeName" "TEXT NOT NULL";
         Column "DeanID" "INTEGER";
         TableConstraint "FOREIGN KEY (DeanID) REFERENCES professors(ProfessorID)" ] |}.

(** main.py lines 23-32. *)
Definition departments : statement :=
  {| table_name := "departments";
     items :=
       [ Column "DeptID" "INTEGER PRIMARY KEY";
         Column "DeptName" "TEXT NOT NULL";
         Column "CollegeID" "INTEGER NOT NULL";
         Column "DeptHeadID" "INTEGER NOT NULL";
         TableConstraint "FOREIGN KEY (CollegeID) REFERENCES colleges(CollegeID)";
         TableConstraint "FOREIGN KEY (DeptHeadID) REFERENCES professors(ProfessorID)" ] |}.

(** main.py lines 53-61. *)
Definition professors : statement :=
  {| table_name := "professors";
     items :=
       [ Column "ProfessorID" "INTEGER PRIMARY KEY AUTOINCREMENT";
         Column "FirstName" "TEXT NOT NULL";
         Column "LastName" "TEXT NOT NULL";
         Column "DateOfBirth" "DATE NOT NULL";
         TableConstraint "CHECK ((strftime('%F') - DateOfBirth) >= 18)";
         Column "PhoneNumber" "TEXT UNIQUE NOT NULL";
         Column "OfficeLocation" "TEXT NOT NULL" ] |}.

(** testtable.py. *)
Definition testtable : script unit :=
  execute colleges;;
  commit;;
  close.

(** main.py. *)
Definition main : script unit :=
  execute colleges;;
  execute departments;;
  execute professors;;
  commit;;
  close.

(** One run of a script as a process of its own, on a file whose content
    is [db] and with nothing failing from outside: what the run raised, if
    anything, and the content of the file when the process is gone. *)
Definition run (s : script unit) (db : database) : option exception * database :=
  let (r, w) := s (start db []) in
  (match r with inl e => Some e | inr _ => None end, durable (conn w)).

End University.

(** * helpsheet.py: keys, Section 11 and Section 9 *)

Module HelpsheetMore.

Import Sqlite Helpsheet.

(** ** What the table keeps *)

(** The e-mail addresses of the table, NULLs left out: UNIQUE is about
    these. *)
Definition emails (t : table) : list string :=
  flat_map (fun r => match email r with Some e => [e] | None => [] end) (rows t).

(** PRIMARY KEY and UNIQUE hold, and the AUTOINCREMENT counter is at least
    every rowid in the table. *)
Definition keys_hold (db : database) : Prop :=
  match db with
  | Some t =>
      NoDup (map id (rows t)) /\
      NoDup (emails t) /\
      Forall (fun r => id r <= sequence t) (rows t)
  | None => True
  end.

(** The row that [INSERT INTO students (name, email, age, gpa)] adds under
    the rowid [i]. *)
Definition inserted (i : Z) (n e : string) (a : Z) (g : float) : student :=
  {| id := i; name := n; email := Some e; age := Some a;
     gpa := real_affinity (bind_real g); enrolled := Some 1 |}.

(** The table of Section 8 with one more student, whose gpa is NULL. *)
Definition students_with_null_gpa : table :=
  {| rows := rows students_at_section8 ++
             [ {| id := 8; name := "Grace Hall"; email := Some "grace@email.com";
                  age := Some 21; gpa := None; enrolled := Some 1 |} ];
     sequence := 8 |}.

(** A fresh connection on a file that holds the table [t], with the given
    failures ahead. *)
Definition with_table (t : table) (fs : list (option sqlite_error))
  : world database statement :=
  start (Some t) fs.

(** ** Section 11, lines 486-494 *)

(** [try: body except sqlite3.IntegrityError as error: handler error].
    The one IntegrityError of the table is the UNIQUE one, and the handler
    is given the column that [str(error)] names. *)
Definition try_except_integrity {A : Type} (body : script A)
  (handler : string -> script A) : script A :=
  fun w =>
    match body w with
    | (inl (Sqlite3Error (UniqueViolation column)), w') => handler column w'
    | r => r
    end.

Definition duplicate_email_example : script unit :=
  try_except_integrity
    (execute (InsertStudent "Another Alice" "alice@email.com" 21 3.5);;
     commit)
    (fun column =>
       print (Heading ("✗ Error: UNIQUE constraint failed: " ++ column));;
       print (Heading "  (Email must be unique!)")).

(** ** Section 9, lines 383-435 *)

(**
<<
CREATE TABLE courses (
    course_id INTEGER PRIMARY KEY AUTOINCREMENT,
    student_id INTEGER,
    course_name TEXT,
    grade TEXT,
    FOREIGN KEY (student_id) REFERENCES students(id)
)
>>
*)
Record course : Type := Course {
  course_id : Z;
  student_id : option Z;
  course_name : option string;
  grade : option string
}.

(** [INSERT INTO courses (student_id, course_name, grade) VALUES (?, ?, ?)]
    into a table that had no row deleted: foreign keys are not enforced,
    so any [student_id] goes in. *)
Definition add_course (cs : list course) (d : Z * string * string) : list course :=
  let '(sid, cname, g) := d in
  (cs ++ [ {| course_id := fold_right Z.max 0 (map course_id cs) + 1;
              student_id := Some sid; course_name := Some cname;
              grade := Some g |} ])%list.

Definition courses_data : list (Z * string * string) :=
  [ (1, "Math 101", "A");
    (1, "English 101", "B");
    (2, "Math 101", "A");
    (3, "History 101", "B") ].

Definition courses_of_script : list course := fold_left add_course courses_data [].

(** [students.id = courses.student_id]. *)
Definition enrolled_in (s : student) (c : course) : bool :=
  match student_id c with
  | Some i => id s =? i
  | None => false
  end.

Definition joined : Type := string * option string * option string.

Definition join_row (s : student) (c : course) : joined :=
  (name s, course_name c, grade c).

(** [SELECT students.name, courses.course_name, courses.grade FROM students
    INNER JOIN courses ON students.id = courses.student_id].  The rows are
    listed student by student; SQL itself promises no order. *)
Definition inner_join (ss : list student) (cs : list course) : list joined :=
  flat_map (fun s => map (join_row s) (List.filter (enrolled_in s) cs)) ss.

(** The same with LEFT JOIN. *)
Definition left_join (ss : list student) (cs : list course) : list joined :=
  flat_map (fun s =>
              match List.filter (enrolled_in s) cs with
              | [] => [(name s, None, None)]
              | c :: cs' => map (join_row s) (c :: cs')
              end) ss.

(** [str(x)] of a column value inside an f-string. *)
Definition py_str (v : option string) : string :=
  match v with
  | Some s => s
  | None => "None"
  end.

(** Lines 434-435: [course_info = f"{course}: {grade}" if course else
    "No courses"], then [f"{name} - {course_info}"]. An empty string is
    false in Python, like [None]. *)
Definition course_info (course grade : option string) : string :=
  match course with
  | Some "" | None => "No courses"
  | Some c => c ++ ": " ++ py_str grade
  end.

Definition left_join_line (row : joined) : string :=
  let '(n, course, g) := row in n ++ " - " ++ course_info course g.

End HelpsheetMore.

(** * Facts about connections *)

Module SqliteFacts.

Import Sqlite.

Section ConnectionFacts.

Context {database statement : Type} `{!Engine database statement}.

Implicit Types (w : world database statement) (c : connection database).

Lemma working_connect (db : database) : working (connect db) = db.
Proof. reflexivity. Qed.

Lemma working_do_commit c : working (do_commit c) = working c.
Proof. reflexivity. Qed.

Lemma working_do_rollback c : working (do_rollback c) = durable c.
Proof. reflexivity. Qed.

Lemma working_no_transaction c : transaction c = None -> working c = durable c.
Proof. unfold working. now intros ->. Qed.

Lemma lines_app (l1 l2 : list (event statement)) :
  lines (l1 ++ l2) = (lines l1 ++ lines l2)%list.
Proof. apply flat_map_app. Qed.

(** The line printed last is the last line of the latest events, when
    they print one. *)
Lemma last_lines_app (l1 l2 : list (event statement)) m :
  last (lines l2) = Some m -> last (lines (l1 ++ l2)) = Some m.
Proof.
  intros H. rewrite lines_app. apply last_app_Some. now left.
Qed.

Lemma commit_outside_transaction w :
  transaction (conn w) = None ->
  commit w = (inr tt, record_event Committed w).
Proof.
  intros H. unfold commit, in_transaction. cbn. now rewrite H.
Qed.

Lemma commit_returns w w1 :
  commit w = (inr tt, w1) -> transaction (conn w1) = None.
Proof.
  unfold commit, in_transaction, next_fault. cbn.
  destruct (transaction (conn w)) eqn:Ht.
  - destruct (faults w) as [|[e|] fs]; cbn; intros [= <-]; reflexivity.
  - intros [= <-]. exact Ht.
Qed.

End ConnectionFacts.

End SqliteFacts.

Section CommitTwice.

Import Sqlite SqliteFacts.

Context {database statement : Type}.

(** C8. After a commit that went through, a second commit with nothing in
    between goes through as well and leaves the connection (the content of
    the file and the absence of a transaction) and the awaited failures as
    the first commit left them. *)
Theorem commit_twice (w w1 : world database statement) :
  commit w = (inr tt, w1) ->
  exists w2,
    commit w1 = (inr tt, w2) /\
    conn w2 = conn w1 /\ faults w2 = faults w1 /\
    durable (conn w2) = working (conn w).
Proof.
  intros H1. exists (record_event Committed w1).
  pose proof (commit_returns w w1 H1) as Hn.
  rewrite (commit_outside_transaction w1 Hn).
  repeat split.
  revert H1. unfold commit, in_transaction, next_fault, working. cbn.
  destruct (transaction (conn w)) eqn:Ht.
  - destruct (faults w) as [|[e|] fs]; cbn; intros [= <-]; cbn;
      unfold working; now rewrite Ht.
  - intros [= <-]. reflexivity.
Qed.

End CommitTwice.

(** * helpsheet.py: the transfer of Section 8 *)

Module HelpsheetFacts.

Import Sqlite SqliteFacts Helpsheet.

Implicit Types (w : world database statement) (t : table) (r : student).

(** Unfold a script down to the connection it acts on. *)
Ltac run_script :=
  unfold transfer_operation, try_except, bind, execute, query, commit, rollback,
    print, next_fault, set_conn, record_event, working, in_transaction, begin,
    write, do_commit, do_rollback in *; cbn in *.

(** Case analysis on what the script looks at: the open transaction, the
    table, the failures ahead. *)
Ltac case_world :=
  repeat match goal with
         | |- context [match ?x with _ => _ end] => is_var x; destruct x; cbn in *
         | H : context [match ?x with _ => _ end] |- _ => is_var x; destruct x; cbn in *
         end.

Ltac last_line :=
  unfold printed; cbn; rewrite <- ?app_assoc;
  apply last_lines_app; reflexivity.

(** ** The two UPDATEs on the rows *)

Lemma with_gpa_name g r : name (with_gpa g r) = name r.
Proof. reflexivity. Qed.

Lemma name_is_with_gpa k g r : name_is k (with_gpa g r) = name_is k r.
Proof. reflexivity. Qed.

Lemma name_is_true k r : name_is k r = true <-> name r = k.
Proof. unfold name_is. apply String.eqb_eq. Qed.

Lemma name_is_false k r : name_is k r = false <-> name r <> k.
Proof. unfold name_is. apply String.eqb_neq. Qed.

(** An update of [gpa] commutes with a selection by name. *)
Lemma filter_name_update k (p : student -> bool) (f : student -> option float)
  (rs : list student) :
  List.filter (name_is k) (map (fun r => if p r then with_gpa (f r) r else r) rs) =
  map (fun r => if p r then with_gpa (f r) r else r) (List.filter (name_is k) rs).
Proof.
  induction rs as [|r rs IH]; cbn; [reflexivity|].
  assert (Hk : name_is k (if p r then with_gpa (f r) r else r) = name_is k r)
    by (destruct (p r); reflexivity).
  rewrite Hk. destruct (name_is k r); cbn; now rewrite IH.
Qed.

Lemma update_names (p : student -> bool) (f : student -> option float)
  (rs : list student) :
  map name (map (fun r => if p r then with_gpa (f r) r else r) rs) = map name rs.
Proof.
  induction rs as [|r rs IH]; cbn; [reflexivity|].
  rewrite IH. now destruct (p r).
Qed.

(** An update selects nothing when its key resolves to no row. *)
Lemma update_unresolved k (f : student -> option float) (rs : list student) :
  List.filter (name_is k) rs = [] ->
  map (fun r => if name_is k r then with_gpa (f r) r else r) rs = rs.
Proof.
  induction rs as [|r rs IH]; cbn; [reflexivity|].
  destruct (name_is k r); [discriminate|].
  intros H. now rewrite IH.
Qed.

Lemma debit_unresolved amount k t :
  List.filter (name_is k) (rows t) = [] -> debit amount k t = t.
Proof.
  intros H. unfold debit, update_gpa; cbn. rewrite update_unresolved by exact H.
  now destruct t.
Qed.

Lemma credit_unresolved amount k t :
  List.filter (name_is k) (rows t) = [] -> credit amount k t = t.
Proof.
  intros H. unfold credit, update_gpa; cbn. rewrite update_unresolved by exact H.
  now destruct t.
Qed.

Lemma balances_debit amount k k' t :
  balances k' (Some (debit amount k t)) =
  map gpa (map (fun r => if name_is k r
                         then with_gpa (sql_sub (gpa r) (bind_real amount)) r
                         else r)
               (List.filter (name_is k') (rows t))).
Proof. unfold balances, debit, update_gpa; cbn. now rewrite filter_name_update. Qed.

Lemma balances_credit amount k k' t :
  balances k' (Some (credit amount k t)) =
  map gpa (map (fun r => if name_is k r
                         then with_gpa (sql_add (gpa r) (bind_real amount)) r
                         else r)
               (List.filter (name_is k') (rows t))).
Proof. unfold balances, credit, update_gpa; cbn. now rewrite filter_name_update. Qed.

(** ** The run of the try/except block *)

(** With the table in place and nothing failing from outside, the block
    commits both UPDATEs and says so. *)
Lemma transfer_commits source destination amount w t :
  working (conn w) = Some t ->
  undisturbed 3 w ->
  transfer_operation source destination amount w =
  (inr tt,
   {| conn := connect (Some (transferred source destination amount t));
      faults := skipn 3 (faults w);
      log := log w ++ [ Executed (SubGpaWhereName amount source);
                        Executed (AddGpaWhereName amount destination);
                        Committed;
                        Printed TransactionSuccessful ] |}).
Proof.
  destruct w as [[d tr] fs lg]. unfold undisturbed; cbn.
  intros Hw Hf.
  destruct fs as [|f1 [|f2 [|f3 fs]]]; cbn in Hf;
    repeat match goal with
           | H : Forall _ (_ :: _) |- _ => inversion H; clear H; subst
           end;
    run_script; destruct tr as [db|]; cbn in *; subst; cbn;
    rewrite <- ?app_assoc; reflexivity.
Qed.

(** The two ways the block can end. *)
Lemma transfer_ends (source destination : string) (amount : float)
  (w : world database statement) :
  let w' := snd (transfer_operation source destination amount w) in
  transaction (conn w') = None /\
  ((last (printed w') = Some TransactionSuccessful /\
    exists t, working (conn w) = Some t /\
              durable (conn w') = Some (transferred source destination amount t))
   \/
   (last (printed w') = Some AllChangesRolledBack /\
    durable (conn w') = durable (conn w))).
Proof.
  destruct w as [[d tr] fs lg]. run_script. case_world.
  all: split; [reflexivity|].
  all: first
    [ left; split; [last_line | eexists; split; reflexivity]
    | right; split; [last_line | reflexivity] ].
Qed.

Lemma transfer_returns (source destination : string) (amount : float)
  (w : world database statement) :
  fst (transfer_operation source destination amount w) = inr tt.
Proof.
  destruct w as [[d tr] fs lg]. run_script. case_world; reflexivity.
Qed.

(** C1. Whatever the table, the transaction in progress and the failures
    ahead, the block ends outside any transaction in exactly one of two
    ways, told apart by the line it prints last: either it committed, and
    the file holds the table with both UPDATEs applied, or it rolled back,
    and the file is as it was; in neither case is a state with one UPDATE
    alone left to be seen. *)
Theorem transfer_all_or_nothing (source destination : string) (amount : float)
  (w : world database statement) :
  let w' := snd (transfer_operation source destination amount w) in
  transaction (conn w') = None /\
  ((last (printed w') = Some TransactionSuccessful /\
    exists t, working (conn w) = Some t /\
              durable (conn w') = Some (transferred source destination amount t))
   \/
   (last (printed w') = Some AllChangesRolledBack /\
    durable (conn w') = durable (conn w))).
Proof. exact (transfer_ends source destination amount w). Qed.

(** C2, as the script has it. When one of the two UPDATEs raises a store
    error, the block calls rollback, then prints the error and the notice
    that all changes were rolled back, and returns normally: the error is
    reported on the output and not raised again. The connection is left
    outside any transaction with the file as it was. *)
Theorem transfer_failure_rolled_back_and_printed (source destination : string)
  (amount : float) (w : world database statement) (e : sqlite_error) :
  mutation_raises source destination amount w e ->
  exists w' calls,
    transfer_operation source destination amount w = (inr tt, w') /\
    (calls = [Executed (SubGpaWhereName amount source)] \/
     calls = [Executed (SubGpaWhereName amount source);
              Executed (AddGpaWhereName amount destination)]) /\
    log w' = (log w ++ calls ++
              [RolledBack; Printed (TransactionFailed e); Printed AllChangesRolledBack])%list /\
    conn w' = do_rollback (conn w).
Proof.
  unfold mutation_raises.
  destruct w as [[d tr] fs lg]. run_script.
  intros [H | (info & w1 & H1 & H2)].
  - case_world; try discriminate; injection H as <-;
      eexists; eexists; (split; [reflexivity|]);
      (split; [left; reflexivity|]); cbn; rewrite <- ?app_assoc; split; reflexivity.
  - case_world; try discriminate; injection H1 as <- <-; cbn in H2;
      case_world; try discriminate; injection H2 as <-;
      eexists; eexists; (split; [reflexivity|]);
      (split; [right; reflexivity|]); cbn; rewrite <- ?app_assoc; split; reflexivity.
Qed.

Lemma filter_singleton (p : student -> bool) (rs : list student) r :
  List.filter p rs = [r] -> p r = true.
Proof.
  intros H. assert (Hin : In r (List.filter p rs)) by (rewrite H; now left).
  now apply filter_In in Hin.
Qed.

(** C3, as the store computes. For two different keys that each resolve
    to exactly one row, the source holding at least the amount, a transfer
    that commits leaves the source with its balance minus the amount and
    the destination with its balance plus the amount, each as REAL
    arithmetic gives it (NULL when that is not a number) and as it is
    stored in the REAL column. *)
Theorem transfer_moves_amount (source destination : string) (amount : float)
  (w w' : world database statement) (t : table) (rs rd : student) :
  source <> destination ->
  working (conn w) = Some t ->
  List.filter (name_is source) (rows t) = [rs] ->
  List.filter (name_is destination) (rows t) = [rd] ->
  covers (gpa rs) amount = true ->
  transfer_operation source destination amount w = (inr tt, w') ->
  last (printed w') = Some TransactionSuccessful ->
  transaction (conn w') = None /\
  balances source (durable (conn w')) =
    [real_affinity (sql_sub (gpa rs) (bind_real amount))] /\
  balances destination (durable (conn w')) =
    [real_affinity (sql_add (gpa rd) (bind_real amount))].
Proof.
  intros Hne Hw Hs Hd _ Hrun Hlast.
  pose proof (transfer_ends source destination amount w) as Hends.
  rewrite Hrun in Hends; cbn [snd] in Hends.
  destruct Hends as [Hn [[_ (t0 & Ht0 & Hdur)] | [Hrb _]]];
    [ | rewrite Hlast in Hrb; discriminate ].
  rewrite Hw in Ht0; injection Ht0 as <-.
  split; [exact Hn|]. rewrite Hdur. unfold transferred.
  pose proof (filter_singleton _ _ _ Hs) as Hrs.
  pose proof (filter_singleton _ _ _ Hd) as Hrd.
  apply name_is_true in Hrs. apply name_is_true in Hrd.
  assert (Hsd : name_is destination rs = false)
    by (apply name_is_false; congruence).
  assert (Hds : name_is source rd = false)
    by (apply name_is_false; congruence).
  apply name_is_true in Hrs. apply name_is_true in Hrd.
  rewrite !balances_credit. unfold debit, update_gpa; cbn.
  rewrite !filter_name_update, Hs, Hd; cbn.
  rewrite Hrs, Hds, Hrd; cbn.
  unfold name_is in Hsd. rewrite Hsd. split; reflexivity.
Qed.

Lemma balances_update_own k (f : option float -> option float) (rs : list student) :
  map gpa (map (fun r => if name_is k r then with_gpa (f (gpa r)) r else r)
               (List.filter (name_is k) rs)) =
  map (fun b => real_affinity (f b)) (map gpa (List.filter (name_is k) rs)).
Proof.
  induction rs as [|r rs IH]; cbn; [reflexivity|].
  destruct (name_is k r) eqn:Hk; cbn; [|exact IH].
  rewrite Hk; cbn. now rewrite IH.
Qed.

(** C5, as the store behaves. When the destination key resolves to no
    row, while the table exists and nothing fails from outside, the call
    does not fail: the second UPDATE changes no row, the block commits and
    reports success, the source's balance is its old balance minus the
    amount, and no row is created. *)
Theorem transfer_to_unresolved_destination (source destination : string)
  (amount : float) (w : world database statement) (t : table) :
  working (conn w) = Some t ->
  List.filter (name_is destination) (rows t) = [] ->
  undisturbed 3 w ->
  exists w',
    transfer_operation source destination amount w = (inr tt, w') /\
    last (printed w') = Some TransactionSuccessful /\
    conn w' = connect (Some (debit amount source t)) /\
    balances source (durable (conn w')) =
      map (fun b => real_affinity (sql_sub b (bind_real amount)))
          (balances source (Some t)) /\
    map name (rows (debit amount source t)) = map name (rows t) /\
    balances destination (durable (conn w')) = [].
Proof.
  intros Hw Hd Hf.
  assert (Hd' : List.filter (name_is destination) (rows (debit amount source t)) = []).
  { unfold debit, update_gpa; cbn. now rewrite filter_name_update, Hd. }
  eexists. split; [apply (transfer_commits _ _ _ _ t Hw Hf)|].
  cbn [conn durable connect].
  split; [last_line|].
  unfold transferred. rewrite (credit_unresolved _ _ _ Hd').
  split; [reflexivity|]. split; [|split].
  - rewrite balances_debit.
    apply (balances_update_own source (fun b => sql_sub b (bind_real amount))).
  - unfold debit, update_gpa; cbn. apply update_names.
  - unfold balances. now rewrite Hd'.
Qed.

(** C6, as the store behaves. When the source key resolves to no row,
    while the table exists and nothing fails from outside, the store
    raises no error: the first UPDATE changes no row, the second adds the
    amount to the destination, the block commits and reports success. *)
Theorem transfer_from_unresolved_source (source destination : string)
  (amount : float) (w : world database statement) (t : table) :
  working (conn w) = Some t ->
  List.filter (name_is source) (rows t) = [] ->
  undisturbed 3 w ->
  exists w',
    transfer_operation source destination amount w = (inr tt, w') /\
    last (printed w') = Some TransactionSuccessful /\
    conn w' = connect (Some (credit amount destination t)) /\
    balances destination (durable (conn w')) =
      map (fun b => real_affinity (sql_add b (bind_real amount)))
          (balances destination (Some t)) /\
    map name (rows (credit amount destination t)) = map name (rows t).
Proof.
  intros Hw Hs Hf.
  eexists. split; [apply (transfer_commits _ _ _ _ t Hw Hf)|].
  cbn [conn durable connect].
  split; [last_line|].
  unfold transferred. rewrite (debit_unresolved _ _ _ Hs).
  split; [reflexivity|]. split.
  - rewrite balances_credit.
    apply (balances_update_own destination (fun b => sql_add b (bind_real amount))).
  - unfold credit, update_gpa; cbn. apply update_names.
Qed.

(** ** What the transfer leaves alone *)

Lemma same_but_gpa_refl source destination r :
  same_but_gpa source destination r r.
Proof. unfold same_but_gpa. repeat split. Qed.

Lemma framed_refl source destination (db : database) :
  framed source destination db db.
Proof.
  destruct db as [t|]; cbn; [|exact I]. split; [reflexivity|].
  induction (rows t); constructor; auto using same_but_gpa_refl.
Qed.

Lemma framed_transferred source destination amount t :
  framed source destination (Some t)
         (Some (transferred source destination amount t)).
Proof.
  cbn. split; [reflexivity|].
  induction (rows t) as [|r rs IH]; cbn; constructor; [|exact IH].
  unfold same_but_gpa.
  destruct (name_is source r) eqn:Hs;
    [rewrite name_is_with_gpa|]; destruct (name_is destination r) eqn:Hd; cbn;
    repeat split; intros H1 H2;
    try (apply name_is_true in Hs; congruence);
    try (apply name_is_true in Hd; congruence).
Qed.

(** C9, from a transaction boundary. Started outside a transaction, as
    the script starts it, the block leaves every row of
    [students] with its id, name, email, age and enrolled, leaves a row
    whose name is neither key exactly as it was, and neither adds nor
    removes a row nor moves the AUTOINCREMENT counter: in what the
    connection sees and in the file, whether it committed or rolled
    back. *)
Theorem transfer_changes_only_gpa_of_the_two (source destination : string)
  (amount : float) (w : world database statement) :
  transaction (conn w) = None ->
  framed source destination
         (working (conn w))
         (working (conn (snd (transfer_operation source destination amount w)))) /\
  framed source destination
         (durable (conn w))
         (durable (conn (snd (transfer_operation source destination amount w)))).
Proof.
  intros Hn.
  destruct (transfer_ends source destination amount w) as [Hn' H].
  rewrite (working_no_transaction _ Hn'), <- (working_no_transaction _ Hn).
  destruct H as [[_ (t & Ht & ->)] | [_ ->]].
  - rewrite Ht. split; apply framed_transferred.
  - rewrite (working_no_transaction _ Hn). split; apply framed_refl.
Qed.

(** ** The run of the script *)

(** Sections 2 to 7 leave the same table whatever the file held, and no
    transaction open. *)
Lemma before_section8_leaves (db : database) :
  fst (before_section8 (start db [])) = inr tt /\
  conn (snd (before_section8 (start db []))) = connect (Some students_at_section8).
Proof. destruct db; vm_compute; split; reflexivity. Qed.

(** The run of the script, whatever the file held before. *)
Lemma helpsheet_run (db : database) :
  fst (helpsheet (start db [])) = inr tt /\
  printed (snd (helpsheet (start db []))) =
    [ Heading "Before: ";
      Balance "Alice Johnson" (Some 3.8%float);
      Balance "Bob Smith" (Some 3.9%float);
      TransactionSuccessful;
      Heading "After: ";
      Balance "Alice Johnson" (Some 3.5999999999999996%float);
      Balance "Bob Smith" (Some 4.1%float) ].
Proof. destruct db; vm_compute; split; reflexivity. Qed.

(** C4, as the script runs. Whatever the file held before, and with
    nothing failing from outside, the script runs through Section 8; the
    balances it prints before the transfer are 3.8 for Alice Johnson and
    3.9 for Bob Smith (Section 5 has set it), and after the transfer
    3.5999999999999996 and 4.1. *)
Theorem helpsheet_balances (db : database) :
  fst (helpsheet (start db [])) = inr tt /\
  printed (snd (helpsheet (start db []))) =
    [ Heading "Before: ";
      Balance "Alice Johnson" (Some 3.8%float);
      Balance "Bob Smith" (Some 3.9%float);
      TransactionSuccessful;
      Heading "After: ";
      Balance "Alice Johnson" (Some 3.5999999999999996%float);
      Balance "Bob Smith" (Some 4.1%float) ].
Proof. exact (helpsheet_run db). Qed.

(** ** Insert, then read back *)

Lemma id_le_largest_rowid t r : In r (rows t) -> id r <= largest_rowid t.
Proof.
  unfold largest_rowid. induction (rows t) as [|r' rs IH]; cbn; [tauto|].
  intros [-> | H]; [lia|]. specialize (IH H). lia.
Qed.

Lemma no_row_at_next_rowid t :
  List.filter (fun r => id r =? next_rowid t) (rows t) = [].
Proof.
  assert (H : forall r, In r (rows t) -> (id r =? next_rowid t) = false).
  { intros r Hr. apply Z.eqb_neq. pose proof (id_le_largest_rowid t r Hr).
    unfold next_rowid. lia. }
  induction (rows t) as [|r rs IH]; cbn; [reflexivity|].
  rewrite (H r) by now left. apply IH. intros r' Hr'. apply H. now right.
Qed.

Lemma insert_student_inr n e a g t t' info :
  insert_student n e a g t = inr (t', info) ->
  info = {| rowcount := 1; lastrowid := Some (next_rowid t) |} /\
  t' = {| rows := rows t ++
                  [{| id := next_rowid t; name := n; email := Some e; age := Some a;
                      gpa := real_affinity (bind_real g); enrolled := Some 1 |}];
          sequence := next_rowid t |}.
Proof.
  unfold insert_student.
  destruct (int64_max <? next_rowid t); [discriminate|].
  destruct (existsb (email_is e) (rows t)); [discriminate|].
  intros [= <- <-]. split; reflexivity.
Qed.

Lemma real_read_back g :
  PrimFloat.is_nan g = false ->
  reads_back_equal g (real_affinity (bind_real g)) = true.
Proof.
  intros Hnan. unfold bind_real. rewrite Hnan. unfold real_affinity. rewrite Hnan.
  destruct (PrimFloat.eqb g 0) eqn:Hz; cbn; [exact Hz|].
  unfold PrimFloat.is_nan in Hnan. now apply negb_false_iff in Hnan.
Qed.

(** An INSERT that went through leaves the connection seeing the table
    with the new row at its end. *)
Lemma execute_insert_inr n e a g w w' info :
  execute (InsertStudent n e a g) w = (inr info, w') ->
  exists t,
    working (conn w) = Some t /\
    lastrowid info = Some (next_rowid t) /\
    working (conn w') =
      Some {| rows := rows t ++
                      [{| id := next_rowid t; name := n; email := Some e;
                          age := Some a; gpa := real_affinity (bind_real g);
                          enrolled := Some 1 |}];
              sequence := next_rowid t |}.
Proof.
  destruct w as [[d tr] fs lg]. run_script.
  destruct (fits_int64 a);
    [| destruct tr as [[t|]|]; [ | | destruct d as [t|]]; cbn; discriminate].
  assert (Hcases :
    (exists t, tr = Some (Some t)) \/ (exists t, tr = None /\ d = Some t) \/
    tr = Some None \/ (tr = None /\ d = None)).
  { destruct tr as [[t|]|]; [eauto | eauto | destruct d as [t|]; eauto 6]. }
  destruct Hcases as [(t & ->) | [(t & -> & ->) | [-> | (-> & ->)]]]; cbn;
    try discriminate.
  all: destruct fs as [|[f|] fs]; cbn; try discriminate.
  all: destruct (insert_student n e a g t) as [err|[t' info']] eqn:Hi;
    try discriminate.
  all: intros [= <- <-]; apply insert_student_inr in Hi as [-> ->].
  all: exists t; repeat split; reflexivity.
Qed.

(** C7, for a gpa that is a number. After an INSERT that went through,
    selecting by the rowid it returned gives exactly one row, with that id,
    the name, email and age that were inserted, a gpa that compares equal
    to the one inserted, and enrolled at its default 1; selecting by the
    name gives that row among its results. *)
Theorem insert_then_select (n e : string) (a : Z) (g : float)
  (w w' : world database statement) (info : cursor_info) :
  execute (InsertStudent n e a g) w = (inr info, w') ->
  PrimFloat.is_nan g = false ->
  exists i r,
    lastrowid info = Some i /\
    select_by_id i (working (conn w')) = inr [r] /\
    id r = i /\ name r = n /\ email r = Some e /\ age r = Some a /\
    reads_back_equal g (gpa r) = true /\ enrolled r = Some 1 /\
    exists rs, select_by_name n (working (conn w')) = inr rs /\ In r rs.
Proof.
  intros Hrun Hnan.
  apply execute_insert_inr in Hrun as (t & _ & Hid & ->).
  eexists; eexists. split; [exact Hid|].
  unfold select_by_id, select_by_name, select_where; cbn.
  rewrite !List.filter_app, no_row_at_next_rowid; cbn.
  rewrite Z.eqb_refl; cbn.
  split; [reflexivity|]. repeat (split; [reflexivity|]).
  split; [now apply real_read_back|]. split; [reflexivity|].
  eexists. split; [reflexivity|].
  apply in_or_app. right. unfold name_is; cbn. rewrite String.eqb_refl. now left.
Qed.

(** ** The claims at concrete inputs *)

(** C2 does not hold as stated: with an I/O error (result code 10) in the
    second UPDATE of the script's own transfer, the UPDATE raises and the
    block returns normally. *)
Lemma transfer_swallows_the_error :
  mutation_raises "Alice Johnson" "Bob Smith" 0.2
    (at_section8 [None; Some (ResultCode 10)]) (ResultCode 10) /\
  fst (transfer_operation "Alice Johnson" "Bob Smith" 0.2
         (at_section8 [None; Some (ResultCode 10)])) = inr tt.
Proof.
  split; [|reflexivity].
  right. eexists; eexists. split; reflexivity.
Qed.

Lemma transfer_failure_rolled_back_and_printed_witness :
  exists w' calls,
    transfer_operation "Alice Johnson" "Bob Smith" 0.2
      (at_section8 [None; Some (ResultCode 10)]) = (inr tt, w') /\
    (calls = [Executed (SubGpaWhereName 0.2 "Alice Johnson")] \/
     calls = [Executed (SubGpaWhereName 0.2 "Alice Johnson");
              Executed (AddGpaWhereName 0.2 "Bob Smith")]) /\
    log w' = (log (at_section8 [None; Some (ResultCode 10)]) ++ calls ++
              [RolledBack; Printed (TransactionFailed (ResultCode 10));
               Printed AllChangesRolledBack])%list /\
    conn w' = do_rollback (conn (at_section8 [None; Some (ResultCode 10)])).
Proof.
  apply (transfer_failure_rolled_back_and_printed "Alice Johnson" "Bob Smith" 0.2
           (at_section8 [None; Some (ResultCode 10)]) (ResultCode 10)).
  right. eexists; eexists. split; reflexivity.
Defined.

(** C3 does not hold as stated: moving 0.2 from Bob Smith to Carol White
    in the script's own table commits, and the two balances, 3.9 and 3.9
    before, are 3.6999999999999997 and 4.1 after; their sum was 7.8 and is
    7.799999999999999, and the source's balance went down by
    0.20000000000000018. *)
Lemma transfer_does_not_conserve_the_sum :
  balances "Bob Smith" (Some students_at_section8) = [Some 3.9%float] /\
  balances "Carol White" (Some students_at_section8) = [Some 3.9%float] /\
  covers (Some 3.9%float) 0.2 = true /\
  last (printed (snd (transfer_operation "Bob Smith" "Carol White" 0.2
                        (at_section8 [])))) = Some TransactionSuccessful /\
  balances "Bob Smith"
    (durable (conn (snd (transfer_operation "Bob Smith" "Carol White" 0.2
                           (at_section8 []))))) = [Some 3.6999999999999997%float] /\
  balances "Carol White"
    (durable (conn (snd (transfer_operation "Bob Smith" "Carol White" 0.2
                           (at_section8 []))))) = [Some 4.1%float] /\
  sql_add (Some 3.9%float) (Some 3.9%float) = Some 7.8%float /\
  sql_add (Some 3.6999999999999997%float) (Some 4.1%float) = Some 7.799999999999999%float /\
  Some 7.799999999999999%float <> Some 7.8%float /\
  sql_sub (Some 3.9%float) (Some 3.6999999999999997%float) = Some 0.20000000000000018%float.
Proof.
  repeat split; try reflexivity. discriminate.
Qed.

Lemma transfer_moves_amount_witness :
  transaction (conn (snd (transfer_operation "Alice Johnson" "Bob Smith" 0.2
                            (at_section8 [])))) = None /\
  balances "Alice Johnson"
    (durable (conn (snd (transfer_operation "Alice Johnson" "Bob Smith" 0.2
                           (at_section8 []))))) =
    [real_affinity (sql_sub (gpa alice) (bind_real 0.2))] /\
  balances "Bob Smith"
    (durable (conn (snd (transfer_operation "Alice Johnson" "Bob Smith" 0.2
                           (at_section8 []))))) =
    [real_affinity (sql_add (gpa bob) (bind_real 0.2))].
Proof.
  apply (transfer_moves_amount "Alice Johnson" "Bob Smith" 0.2 (at_section8 [])
           (snd (transfer_operation "Alice Johnson" "Bob Smith" 0.2 (at_section8 [])))
           students_at_section8 alice bob).
  - discriminate.
  - reflexivity.
  - reflexivity.
  - reflexivity.
  - reflexivity.
  - vm_compute. reflexivity.
  - reflexivity.
Defined.

(** C4 does not hold as stated: the lines the script prints are not the
    claimed ones; Bob Smith stands at 3.9 before the transfer, not 3.5. *)
Lemma helpsheet_balances_not_as_claimed :
  printed (snd (helpsheet (start None []))) <>
    [ Heading "Before: ";
      Balance "Alice Johnson" (Some 3.8%float);
      Balance "Bob Smith" (Some 3.5%float);
      TransactionSuccessful;
      Heading "After: ";
      Balance "Alice Johnson" (Some 3.6%float);
      Balance "Bob Smith" (Some 3.7%float) ].
Proof.
  intros H.
  pose proof (eq_trans (eq_sym H) (proj2 (helpsheet_run None))) as Hlines.
  discriminate Hlines.
Qed.

(** C5 does not hold as stated: with the destination "Zed", which no row
    has, the script's transfer returns normally, reports success, and
    leaves Alice Johnson at 3.5999999999999996 instead of her 3.8. *)
Lemma unresolved_destination_still_debits :
  balances "Zed" (Some students_at_section8) = [] /\
  balances "Alice Johnson" (Some students_at_section8) = [Some 3.8%float] /\
  fst (transfer_operation "Alice Johnson" "Zed" 0.2 (at_section8 [])) = inr tt /\
  last (printed (snd (transfer_operation "Alice Johnson" "Zed" 0.2
                        (at_section8 [])))) = Some TransactionSuccessful /\
  balances "Alice Johnson"
    (durable (conn (snd (transfer_operation "Alice Johnson" "Zed" 0.2
                           (at_section8 []))))) = [Some 3.5999999999999996%float].
Proof. repeat split; reflexivity. Qed.

Lemma transfer_to_unresolved_destination_witness :
  exists w',
    transfer_operation "Alice Johnson" "Zed" 0.2 (at_section8 []) = (inr tt, w') /\
    last (printed w') = Some TransactionSuccessful /\
    conn w' = connect (Some (debit 0.2 "Alice Johnson" students_at_section8)) /\
    balances "Alice Johnson" (durable (conn w')) =
      map (fun b => real_affinity (sql_sub b (bind_real 0.2)))
          (balances "Alice Johnson" (Some students_at_section8)) /\
    map name (rows (debit 0.2 "Alice Johnson" students_at_section8)) =
      map name (rows students_at_section8) /\
    balances "Zed" (durable (conn w')) = [].
Proof.
  apply (transfer_to_unresolved_destination "Alice Johnson" "Zed" 0.2
           (at_section8 []) students_at_section8).
  - reflexivity.
  - reflexivity.
  - constructor.
Defined.

(** C6 does not hold as stated: with the source "Zed", which no row has,
    no error is raised; the script's transfer reports success and leaves
    Bob Smith at 4.1 instead of his 3.9. *)
Lemma unresolved_source_still_credits :
  balances "Zed" (Some students_at_section8) = [] /\
  balances "Bob Smith" (Some students_at_section8) = [Some 3.9%float] /\
  fst (execute (SubGpaWhereName 0.2 "Zed") (at_section8 [])) =
    inr {| rowcount := 0; lastrowid := None |} /\
  fst (transfer_operation "Zed" "Bob Smith" 0.2 (at_section8 [])) = inr tt /\
  last (printed (snd (transfer_operation "Zed" "Bob Smith" 0.2
                        (at_section8 [])))) = Some TransactionSuccessful /\
  balances "Bob Smith"
    (durable (conn (snd (transfer_operation "Zed" "Bob Smith" 0.2
                           (at_section8 []))))) = [Some 4.1%float].
Proof. repeat split; reflexivity. Qed.

Lemma transfer_from_unresolved_source_witness :
  exists w',
    transfer_operation "Zed" "Bob Smith" 0.2 (at_section8 []) = (inr tt, w') /\
    last (printed w') = Some TransactionSuccessful /\
    conn w' = connect (Some (credit 0.2 "Bob Smith" students_at_section8)) /\
    balances "Bob Smith" (durable (conn w')) =
      map (fun b => real_affinity (sql_add b (bind_real 0.2)))
          (balances "Bob Smith" (Some students_at_section8)) /\
    map name (rows (credit 0.2 "Bob Smith" students_at_section8)) =
      map name (rows students_at_section8).
Proof.
  apply (transfer_from_unresolved_source "Zed" "Bob Smith" 0.2
           (at_section8 []) students_at_section8).
  - reflexivity.
  - reflexivity.
  - constructor.
Defined.

(** C7 does not hold as stated: a row inserted with a gpa that is not a
    number reads back with NULL in its place. *)
Lemma nan_reads_back_as_null :
  fst (execute (InsertStudent "Grace Hall" "grace@email.com" 21 nan)
         (at_section8 [])) = inr {| rowcount := 1; lastrowid := Some 8 |} /\
  select_by_id 8
    (working (conn (snd (execute (InsertStudent "Grace Hall" "grace@email.com" 21 nan)
                           (at_section8 []))))) =
    inr [ {| id := 8; name := "Grace Hall"; email := Some "grace@email.com";
             age := Some 21; gpa := None; enrolled := Some 1 |} ].
Proof. split; reflexivity. Qed.

Lemma insert_then_select_witness :
  exists i r,
    lastrowid {| rowcount := 1; lastrowid := Some 8 |} = Some i /\
    select_by_id i
      (working (conn (snd (execute (InsertStudent "Grace Hall" "grace@email.com" 21 3.4)
                             (at_section8 []))))) = inr [r] /\
    id r = i /\ name r = "Grace Hall" /\ email r = Some "grace@email.com" /\
    age r = Some 21 /\
    reads_back_equal 3.4 (gpa r) = true /\ enrolled r = Some 1 /\
    exists rs,
      select_by_name "Grace Hall"
        (working (conn (snd (execute (InsertStudent "Grace Hall" "grace@email.com" 21 3.4)
                               (at_section8 []))))) = inr rs /\
      In r rs.
Proof.
  apply (insert_then_select "Grace Hall" "grace@email.com" 21 3.4 (at_section8 [])).
  - vm_compute. reflexivity.
  - reflexivity.
Defined.

Lemma transfer_changes_only_gpa_of_the_two_witness :
  framed "Alice Johnson" "Bob Smith"
         (working (conn (at_section8 [])))
         (working (conn (snd (transfer_operation "Alice Johnson" "Bob Smith" 0.2
                                (at_section8 []))))) /\
  framed "Alice Johnson" "Bob Smith"
         (durable (conn (at_section8 [])))
         (durable (conn (snd (transfer_operation "Alice Johnson" "Bob Smith" 0.2
                                (at_section8 []))))).
Proof.
  apply (transfer_changes_only_gpa_of_the_two "Alice Johnson" "Bob Smith" 0.2
           (at_section8 [])).
  reflexivity.
Defined.

(** C9 does not hold as stated. With a DELETE of Eve Davis pending when
    the block starts, a transfer that fails rolls the DELETE back with its
    own UPDATE, so that the connection sees a row it did not see before;
    and a transfer that goes through commits the DELETE with its UPDATEs,
    so that the file loses a row that neither key names. *)
Lemma pending_changes_share_the_fate_of_the_transfer :
  ~ framed "Alice Johnson" "Bob Smith"
      (working (conn (snd (execute (DeleteWhereName "Eve Davis")
                             (at_section8 [None; Some (ResultCode 10)])))))
      (working (conn (snd (transfer_operation "Alice Johnson" "Bob Smith" 0.2
                             (snd (execute (DeleteWhereName "Eve Davis")
                                     (at_section8 [None; Some (ResultCode 10)]))))))) /\
  ~ framed "Alice Johnson" "Bob Smith"
      (durable (conn (snd (execute (DeleteWhereName "Eve Davis") (at_section8 [])))))
      (durable (conn (snd (transfer_operation "Alice Johnson" "Bob Smith" 0.2
                             (snd (execute (DeleteWhereName "Eve Davis")
                                     (at_section8 []))))))).
Proof.
  split; intros [_ H]; apply Forall2_length in H; discriminate H.
Qed.

Lemma commit_twice_witness :
  exists w2,
    commit (snd (commit (snd (execute (SetGpaWhereName 3.9 "Bob Smith")
                                (at_section8 []))))) = (inr tt, w2) /\
    conn w2 = conn (snd (commit (snd (execute (SetGpaWhereName 3.9 "Bob Smith")
                                        (at_section8 []))))) /\
    faults w2 = faults (snd (commit (snd (execute (SetGpaWhereName 3.9 "Bob Smith")
                                            (at_section8 []))))) /\
    durable (conn w2) =
      working (conn (snd (execute (SetGpaWhereName 3.9 "Bob Smith") (at_section8 [])))).
Proof.
  apply (commit_twice (snd (execute (SetGpaWhereName 3.9 "Bob Smith") (at_section8 [])))).
  vm_compute. reflexivity.
Defined.

End HelpsheetFacts.

(** * main.py and testtable.py: running a script twice *)

Module UniversityFacts.

Import Sqlite University.

Implicit Types (db : database) (s : statement).

Lemma create_present s db :
  is_Some (db !! table_name s) -> create_if_not_exists s db = db.
Proof. intros [its H]. unfold create_if_not_exists. now rewrite H. Qed.

Lemma create_creates s db : is_Some (create_if_not_exists s db !! table_name s).
Proof.
  unfold create_if_not_exists.
  destruct (db !! table_name s) eqn:H; [now rewrite H|].
  rewrite lookup_insert_eq. eauto.
Qed.

Lemma create_keeps s db (k : string) :
  is_Some (db !! k) -> is_Some (create_if_not_exists s db !! k).
Proof.
  intros Hk. unfold create_if_not_exists.
  destruct (db !! table_name s) eqn:H; [exact Hk|].
  destruct (decide (table_name s = k)) as [<-|Hne].
  - rewrite lookup_insert_eq. eauto.
  - now rewrite lookup_insert_ne.
Qed.

(** A table that is there stays as it is. *)
Lemma create_leaves s db (k : string) :
  is_Some (db !! k) -> create_if_not_exists s db !! k = db !! k.
Proof.
  intros Hk. unfold create_if_not_exists.
  destruct (db !! table_name s) eqn:H; [reflexivity|].
  destruct (decide (table_name s = k)) as [<-|Hne].
  - rewrite H in Hk. now destruct Hk.
  - now rewrite lookup_insert_ne.
Qed.

Lemma create_idempotent s db :
  create_if_not_exists s (create_if_not_exists s db) = create_if_not_exists s db.
Proof. apply create_present, create_creates. Qed.

Lemma run_testtable db :
  run testtable db = (None, create_if_not_exists colleges db).
Proof. reflexivity. Qed.

Lemma run_main db :
  run main db =
  (Some (Sqlite3Error (SyntaxErrorNear "PhoneNumber")),
   create_if_not_exists departments (create_if_not_exists colleges db)).
Proof. reflexivity. Qed.

(** testtable.py run a second time raises nothing and leaves the tables
    as the first run left them. *)
Lemma testtable_twice db :
  run testtable (snd (run testtable db)) = (None, snd (run testtable db)).
Proof.
  rewrite !run_testtable; cbn [snd]. now rewrite create_idempotent.
Qed.

(** C10 at main.py. On any file, main.py stops at its third statement with
    a syntax error near PhoneNumber: in the definition of [professors] a
    column follows the CHECK constraint. So does a second run; it leaves
    the tables of the first run as they are, and neither run creates
    [professors]. *)
Theorem main_second_run_raises (db : database) :
  fst (run main db) = Some (Sqlite3Error (SyntaxErrorNear "PhoneNumber")) /\
  fst (run main (snd (run main db))) =
    Some (Sqlite3Error (SyntaxErrorNear "PhoneNumber")) /\
  snd (run main (snd (run main db))) = snd (run main db) /\
  snd (run main db) !! "professors" = db !! "professors".
Proof.
  rewrite !run_main; cbn [fst snd].
  split; [reflexivity|]. split; [reflexivity|]. split.
  - rewrite (create_present colleges).
    + apply create_idempotent.
    + apply create_keeps, create_creates.
  - unfold create_if_not_exists; cbn [table_name items colleges departments].
    destruct (db !! "colleges") eqn:Hc;
      [ destruct (db !! "departments") eqn:Hd
      | destruct (<["colleges" := _]> db !! "departments") eqn:Hd ];
      rewrite ?lookup_insert_ne by discriminate; reflexivity.
Qed.

End UniversityFacts.

(** * More about connections: what reaches the file, and when *)

Module TransactionFacts.

Import Sqlite SqliteFacts.

Section Transactions.

Context {database statement : Type} `{!Engine database statement}.

Implicit Types (w : world database statement) (s : statement).

Ltac run_call :=
  unfold execute, query, commit, rollback, close, print, next_fault, set_conn,
    record_event, working, in_transaction, begin, write, do_commit, do_rollback
    in *; cbn in *.

(** A data-modifying statement, whether it goes through or raises, leaves
    the file alone: its effect waits in the transaction. *)
Lemma execute_dml_durable s w :
  is_dml s = true ->
  durable (conn (snd (execute s w))) = durable (conn w).
Proof.
  intros Hdml. destruct w as [[d tr] fs lg]. run_call. rewrite Hdml.
  destruct (compile s _); [reflexivity|]; cbn.
  destruct (bind_parameters s); [reflexivity|]; cbn.
  destruct fs as [|[f|] fs]; cbn; try reflexivity;
    destruct (step s _) as [e|[db info]]; reflexivity.
Qed.

(** A statement that returned ran to its end on what the connection saw;
    the file is as it was, or, outside a transaction, it is what the
    connection sees now. *)
Lemma execute_inr s w w' info :
  execute s w = (inr info, w') ->
  step s (working (conn w)) = inr (working (conn w'), info) /\
  (durable (conn w') = durable (conn w) \/
   durable (conn w') = working (conn w')).
Proof.
  destruct w as [[d tr] fs lg]. run_call.
  destruct (compile s _); [discriminate|]; cbn.
  destruct (bind_parameters s); [discriminate|]; cbn.
  destruct fs as [|[f|] fs]; cbn; try discriminate.
  all: destruct (is_dml s), tr as [db0|]; cbn;
    destruct (step s _) as [e|[db i]] eqn:Hs; cbn; try discriminate;
    intros [= <- <-]; cbn; auto.
Qed.

(** A statement that raised left the file as it was. *)
Lemma execute_inl_durable s w w' e :
  execute s w = (inl e, w') -> durable (conn w') = durable (conn w).
Proof.
  destruct w as [[d tr] fs lg]. run_call.
  destruct (compile s _); [now intros [= <- <-]|]; cbn.
  destruct (bind_parameters s);
    [intros [= <- <-]; now destruct (is_dml s), tr|]; cbn.
  destruct fs as [|[f|] fs]; cbn;
    try (intros [= <- <-]; now destruct (is_dml s), tr).
  all: destruct (is_dml s), tr as [db0|]; cbn;
    destruct (step s _) as [e0|[db i]] eqn:Hs; cbn; try discriminate;
    now intros [= <- <-].
Qed.

Lemma commit_inr_durable w w1 :
  commit w = (inr tt, w1) ->
  durable (conn w1) = working (conn w) /\ transaction (conn w1) = None.
Proof.
  destruct w as [[d tr] fs lg]. run_call.
  destruct tr as [db|]; cbn.
  - destruct fs as [|[f|] fs]; cbn; intros [= <-]; now split.
  - intros [= <-]; now split.
Qed.

Lemma commit_inl_conn w w1 e :
  commit w = (inl e, w1) -> conn w1 = conn w.
Proof.
  destruct w as [[d tr] fs lg]. run_call.
  destruct tr as [db|]; cbn.
  - destruct fs as [|[f|] fs]; cbn; intros [= <- <-]; reflexivity.
  - discriminate.
Qed.

Lemma rollback_working w :
  working (conn (snd (rollback w))) = durable (conn w) /\
  durable (conn (snd (rollback w))) = durable (conn w).
Proof. now split. Qed.

Lemma close_durable w :
  durable (conn (snd (close w))) = durable (conn w) /\
  transaction (conn (snd (close w))) = None.
Proof. now split. Qed.

End Transactions.

End TransactionFacts.

(** * helpsheet.py: transactions, keys and rowids *)

Module HelpsheetMoreFacts.

Import Sqlite SqliteFacts TransactionFacts Helpsheet HelpsheetMore HelpsheetFacts.

Implicit Types (w : world database statement) (t : table) (r : student)
  (s : statement) (db : database).

(** ** Nothing reaches the file before commit *)

(** X1. However many INSERT, UPDATE and DELETE statements run, and whether
    they go through or one of them raises, the file stays as it was; a
    rollback afterwards makes the connection see the file again, and
    closing the connection without commit leaves the file as it was. *)
Theorem uncommitted_changes_stay_out_of_the_file (ss : list statement) w :
  Forall (fun s => statement_is_dml s = true) ss ->
  durable (conn (snd (executemany ss w))) = durable (conn w) /\
  working (conn (snd (rollback (snd (executemany ss w))))) = durable (conn w) /\
  durable (conn (snd (close (snd (executemany ss w))))) = durable (conn w).
Proof.
  intros Hss.
  assert (H : durable (conn (snd (executemany ss w))) = durable (conn w)).
  { revert w. induction Hss as [|s ss Hs _ IH]; intros w; [reflexivity|].
    cbn [executemany]. unfold bind.
    pose proof (execute_dml_durable s w Hs) as Hd.
    destruct (execute s w) as [[e|info] w1]; cbn [snd] in *; [exact Hd|].
    now rewrite IH. }
  split; [exact H|]. split.
  - now rewrite (proj1 (rollback_working _)).
  - now rewrite (proj1 (close_durable _)).
Qed.

(** ** The keys *)

Lemma map_as_flat_map {A B : Type} (f : A -> B) (l : list A) :
  map f l = flat_map (fun x => [f x]) l.
Proof. induction l as [|x l IH]; cbn; [reflexivity|]. now rewrite IH. Qed.

Lemma NoDup_flat_map_filter {A B : Type} (f : A -> list B) (p : A -> bool)
  (l : list A) :
  NoDup (flat_map f l) -> NoDup (flat_map f (List.filter p l)).
Proof.
  induction l as [|x l IH]; cbn; [trivial|].
  intros H. apply NoDup_app in H as (Hx & Hdisj & Hl).
  destruct (p x); cbn; [|now apply IH].
  apply NoDup_app. split; [exact Hx|]. split; [|now apply IH].
  intros y Hy Hin. apply (Hdisj y Hy).
  apply list_elem_of_In in Hin. apply list_elem_of_In.
  apply in_flat_map in Hin as (z & Hz & Hyz). apply in_flat_map.
  exists z. split; [|exact Hyz]. now apply filter_In in Hz.
Qed.

Lemma update_ids (p : student -> bool) (f : student -> option float)
  (rs : list student) :
  map id (map (fun r => if p r then with_gpa (f r) r else r) rs) = map id rs.
Proof.
  induction rs as [|r rs IH]; cbn; [reflexivity|].
  rewrite IH. now destruct (p r).
Qed.

Lemma update_emails (p : student -> bool) (f : student -> option float) t :
  emails (fst (update_gpa p f t)) = emails t.
Proof.
  unfold emails, update_gpa; cbn.
  induction (rows t) as [|r rs IH]; cbn; [reflexivity|].
  rewrite IH. now destruct (p r).
Qed.

Lemma id_lt_next_rowid t r : In r (rows t) -> id r < next_rowid t.
Proof.
  intros H. pose proof (id_le_largest_rowid t r H). unfold next_rowid. lia.
Qed.

(** An INSERT that goes through found the address free and the next rowid
    in range. *)
Lemma insert_student_ok n e a g t t' info :
  insert_student n e a g t = inr (t', info) ->
  next_rowid t <= int64_max /\ ~ In e (emails t).
Proof.
  unfold insert_student.
  destruct (int64_max <? next_rowid t) eqn:Hmax; [discriminate|].
  destruct (existsb (email_is e) (rows t)) eqn:Hex; [discriminate|].
  intros _. split; [now apply Z.ltb_ge in Hmax|].
  intros Hin. unfold emails in Hin. apply in_flat_map in Hin as (r & Hr & He).
  assert (Hex' : existsb (email_is e) (rows t) = true).
  { apply existsb_exists. exists r. split; [exact Hr|].
    unfold email_is. destruct (email r) as [e'|]; [|destruct He].
    destruct He as [->|[]]. apply String.eqb_refl. }
  congruence.
Qed.

Lemma keys_hold_update (p : student -> bool) (f : student -> option float) t :
  keys_hold (Some t) -> keys_hold (Some (fst (update_gpa p f t))).
Proof.
  intros (Hid & Hem & Hseq). unfold keys_hold.
  rewrite update_emails. cbn. rewrite update_ids.
  split; [exact Hid|]. split; [exact Hem|].
  apply List.Forall_forall. intros r' Hr'. apply in_map_iff in Hr' as (r & <- & Hr).
  rewrite List.Forall_forall in Hseq. specialize (Hseq r Hr).
  now destruct (p r).
Qed.

Lemma keys_hold_delete (p : student -> bool) t :
  keys_hold (Some t) -> keys_hold (Some (fst (delete_where p t))).
Proof.
  intros (Hid & Hem & Hseq). unfold keys_hold, emails; cbn.
  split; [|split].
  - rewrite map_as_flat_map. apply NoDup_flat_map_filter.
    now rewrite <- map_as_flat_map.
  - now apply NoDup_flat_map_filter.
  - apply List.Forall_forall. intros r Hr. apply filter_In in Hr as [Hr _].
    rewrite List.Forall_forall in Hseq. now apply Hseq.
Qed.

Lemma keys_hold_insert n e a g t t' info :
  keys_hold (Some t) ->
  insert_student n e a g t = inr (t', info) ->
  keys_hold (Some t').
Proof.
  intros (Hid & Hem & Hseq) Hins.
  pose proof (insert_student_ok _ _ _ _ _ _ _ Hins) as [_ Hfree].
  apply insert_student_inr in Hins as [_ ->].
  unfold keys_hold, emails; cbn.
  rewrite map_app, flat_map_app; cbn.
  split; [|split].
  - apply NoDup_app. split; [exact Hid|]. split; [|apply NoDup_singleton].
    intros i Hi Hnew. apply list_elem_of_In in Hi, Hnew.
    destruct Hnew as [<-|[]]. apply in_map_iff in Hi as (r & Heq & Hr).
    pose proof (id_lt_next_rowid t r Hr). lia.
  - apply NoDup_app. split; [exact Hem|]. split; [|apply NoDup_singleton].
    intros e' He' Hnew. apply list_elem_of_In in He', Hnew.
    destruct Hnew as [<-|[]]. now apply Hfree.
  - apply Forall_app. split.
    + apply List.Forall_forall. intros r Hr.
      pose proof (id_lt_next_rowid t r Hr). lia.
    + constructor; [cbn; lia|constructor].
Qed.

Lemma step_keeps_keys s db db' info :
  keys_hold db ->
  step_statement s db = inr (db', info) ->
  keys_hold db'.
Proof.
  intros Hk. destruct s as [ | | n e a g | g n | d a | d n | d n | n | g ]; cbn.
  - intros [= <- _]. exact I.
  - intros [= <- _]. cbn. repeat split; constructor.
  - destruct db as [t|]; [|discriminate].
    destruct (insert_student n e a g t) as [err|[t' i]] eqn:Hi;
      [discriminate|].
    intros [= <- _]. exact (keys_hold_insert _ _ _ _ _ _ _ Hk Hi).
  - destruct db as [t|]; [|discriminate]. cbn.
    intros [= <- _]. now apply (keys_hold_update _ _ t).
  - destruct db as [t|]; [|discriminate]. cbn.
    intros [= <- _]. now apply (keys_hold_update _ _ t).
  - destruct db as [t|]; [|discriminate]. cbn.
    intros [= <- _]. now apply (keys_hold_update _ _ t).
  - destruct db as [t|]; [|discriminate]. cbn.
    intros [= <- _]. now apply (keys_hold_update _ _ t).
  - destruct db as [t|]; [|discriminate]. cbn.
    intros [= <- _]. now apply (keys_hold_delete _ t).
  - destruct db as [t|]; [|discriminate]. cbn.
    intros [= <- _]. now apply (keys_hold_delete _ t).
Qed.

(** X3. The keys of [students] are kept, in the file and in what the
    connection sees. When in both the rowids are distinct, the non-NULL
    e-mail addresses are distinct and no rowid exceeds the AUTOINCREMENT
    counter, then after any statement of the script the same holds of the
    file, whether the call returned or raised, and after a call that
    returned it holds of what the connection sees. *)
Theorem execute_keeps_keys s w :
  keys_hold (durable (conn w)) ->
  keys_hold (working (conn w)) ->
  keys_hold (durable (conn (snd (execute s w)))) /\
  (forall info w', execute s w = (inr info, w') -> keys_hold (working (conn w'))).
Proof.
  intros Hd Hk. split.
  - destruct (execute s w) as [[e|info] w'] eqn:Hrun; cbn [snd].
    + now rewrite (execute_inl_durable s w w' e Hrun).
    + destruct (execute_inr s w w' info Hrun) as [Hstep [-> | ->]]; [exact Hd|].
      exact (step_keeps_keys s _ _ info Hk Hstep).
  - intros info w' Hrun.
    destruct (execute_inr s w w' info Hrun) as [Hstep _].
    exact (step_keeps_keys s _ _ info Hk Hstep).
Qed.

(** ** Rowids *)

(** X4. A rowid is never given twice: after a DELETE, whatever it removes,
    the next INSERT that goes through gets a rowid above every rowid the
    table held before the DELETE. *)
Theorem rowid_never_reused (p : student -> bool) (n e : string) (a : Z)
  (g : float) t t' info :
  keys_hold (Some t) ->
  insert_student n e a g (fst (delete_where p t)) = inr (t', info) ->
  exists i,
    lastrowid info = Some i /\
    Forall (fun r => id r < i) (rows t).
Proof.
  intros (_ & _ & Hseq) Hins.
  apply insert_student_inr in Hins as [-> _].
  eexists. split; [reflexivity|].
  apply List.Forall_forall. intros r Hr.
  rewrite List.Forall_forall in Hseq. specialize (Hseq r Hr).
  unfold next_rowid, delete_where; cbn. lia.
Qed.

Lemma filter_none (p : student -> bool) (rs : list student) :
  List.filter p rs = [] -> List.filter (fun r => negb (p r)) rs = rs.
Proof.
  induction rs as [|r rs IH]; cbn; [reflexivity|].
  destruct (p r); [discriminate|]. cbn. intros H. now rewrite IH.
Qed.

(** X5. Inserting a student under a name no row has and deleting by that
    name, as Section 6 does with its test student, gives back the rows as
    they were and reports one row deleted; the AUTOINCREMENT counter does
    not go back. *)
Theorem insert_then_delete_by_name (n e : string) (a : Z) (g : float) t t' info :
  List.filter (name_is n) (rows t) = [] ->
  insert_student n e a g t = inr (t', info) ->
  delete_where (name_is n) t' =
    ({| rows := rows t; sequence := next_rowid t |},
     {| rowcount := 1; lastrowid := None |}).
Proof.
  intros Hn Hins. apply insert_student_inr in Hins as [_ ->].
  unfold delete_where, count; cbn.
  rewrite !List.filter_app, Hn, (filter_none _ _ Hn); cbn.
  unfold name_is; cbn. rewrite String.eqb_refl; cbn.
  now rewrite app_nil_r.
Qed.

(** ** UPDATE and DELETE by name *)

Lemma filter_length_split (p : student -> bool) (rs : list student) :
  (length (List.filter p rs) + length (List.filter (fun r => negb (p r)) rs))%nat =
  length rs.
Proof.
  induction rs as [|r rs IH]; cbn; [reflexivity|].
  destruct (p r); cbn; lia.
Qed.

Lemma filter_not_name_update k (f : student -> option float) (rs : list student) :
  List.filter (fun r => negb (name_is k r))
    (map (fun r => if name_is k r then with_gpa (f r) r else r) rs) =
  List.filter (fun r => negb (name_is k r)) rs.
Proof.
  induction rs as [|r rs IH]; [reflexivity|].
  cbn [map List.filter].
  destruct (name_is k r) eqn:Hk.
  - rewrite name_is_with_gpa, Hk. exact IH.
  - rewrite Hk. cbn [negb]. now rewrite IH.
Qed.

Lemma update_gpa_by_name (g : float) (n : string) t :
  balances n (Some (fst (update_gpa (name_is n) (fun _ => bind_real g) t))) =
    map (fun _ => real_affinity (bind_real g)) (balances n (Some t)) /\
  List.filter (fun r => negb (name_is n r))
    (rows (fst (update_gpa (name_is n) (fun _ => bind_real g) t))) =
    List.filter (fun r => negb (name_is n r)) (rows t) /\
  map id (rows (fst (update_gpa (name_is n) (fun _ => bind_real g) t))) =
    map id (rows t) /\
  (balances n (Some t) = [] ->
   fst (update_gpa (name_is n) (fun _ => bind_real g) t) = t).
Proof.
  unfold balances, update_gpa; cbn.
  rewrite filter_name_update. split.
  - rewrite (balances_update_own n (fun _ => bind_real g)).
    now rewrite map_map.
  - split; [apply filter_not_name_update|]. split; [apply update_ids|].
    intros Hnone. apply map_eq_nil in Hnone.
    rewrite (update_unresolved _ _ _ Hnone). now destruct t.
Qed.

(** A statement on the rows of the table, the table being there and
    nothing failing from outside, returns what it made of the table and
    leaves the file alone. *)
Lemma execute_on_rows s w t (f : table -> table * cursor_info) :
  working (conn w) = Some t ->
  undisturbed 1 w ->
  compile_statement s (Some t) = None ->
  statement_is_dml s = true ->
  bind_statement s = None ->
  step_statement s (Some t) = on_table (Some t) f ->
  exists w',
    execute s w = (inr (snd (f t)), w') /\
    working (conn w') = Some (fst (f t)) /\
    durable (conn w') = durable (conn w).
Proof.
  intros Hw Hf Hc Hdml Hb Hstep.
  destruct w as [c fs lg]. unfold undisturbed in Hf; cbn in Hw, Hf.
  assert (Hfs : fs = [] \/ exists fs', fs = None :: fs').
  { destruct fs as [|[f0|] fs']; [now left| |right; now exists fs'].
    inversion Hf; discriminate. }
  unfold execute, next_fault, set_conn, record_event; cbn.
  rewrite Hw, Hc, Hdml, Hb; cbn.
  destruct Hfs as [-> | (fs' & ->)]; cbn; rewrite Hw, Hstep; cbn;
    destruct (f t) as [t' info]; cbn; eexists; repeat split; reflexivity.
Qed.

(** X7. [UPDATE students SET gpa = ? WHERE name = ?] (Section 5), the
    table being there and nothing failing from outside, raises nothing,
    whether rows have that name or not. Its rowcount is the number of rows
    of that name; each of them holds the new gpa afterwards; the other rows
    are unchanged and no row is added or removed; the file is not touched.
    With no row of that name the rowcount is 0 and the table is as it
    was. *)
Theorem update_by_name (g : float) (n : string) w t :
  working (conn w) = Some t ->
  undisturbed 1 w ->
  exists info w' t',
    execute (SetGpaWhereName g n) w = (inr info, w') /\
    working (conn w') = Some t' /\
    durable (conn w') = durable (conn w) /\
    rowcount info = Z.of_nat (length (balances n (Some t))) /\
    balances n (Some t') =
      map (fun _ => real_affinity (bind_real g)) (balances n (Some t)) /\
    List.filter (fun r => negb (name_is n r)) (rows t') =
      List.filter (fun r => negb (name_is n r)) (rows t) /\
    map id (rows t') = map id (rows t) /\
    (balances n (Some t) = [] -> t' = t /\ rowcount info = 0).
Proof.
  intros Hw Hf.
  destruct (execute_on_rows (SetGpaWhereName g n) w t
              (update_gpa (name_is n) (fun _ => bind_real g)) Hw Hf
              eq_refl eq_refl eq_refl eq_refl) as (w' & Hrun & Hw' & Hd).
  destruct (update_gpa_by_name g n t) as (Hb & Ho & Hi & Hz).
  eexists; exists w'; eexists. split; [exact Hrun|]. split; [exact Hw'|].
  split; [exact Hd|]. split.
  - unfold balances, update_gpa, count; cbn. now rewrite length_map.
  - split; [exact Hb|]. split; [exact Ho|]. split; [exact Hi|].
    intros Hnone. split; [now apply Hz|].
    unfold balances in Hnone. apply map_eq_nil in Hnone.
    unfold update_gpa, count; cbn. now rewrite Hnone.
Qed.

(** X8. [DELETE FROM students WHERE name = ?] (Section 6): the rowcount is
    the number of rows the table lost, no row of that name is left, the
    rows of other names stay as they were and in their order, and the
    AUTOINCREMENT counter is kept. *)
Theorem delete_by_name (n : string) t t' info :
  step_statement (DeleteWhereName n) (Some t) = inr (Some t', info) ->
  Z.of_nat (length (rows t)) = Z.of_nat (length (rows t')) + rowcount info /\
  select_by_name n (Some t') = inr [] /\
  rows t' = List.filter (fun r => negb (name_is n r)) (rows t) /\
  sequence t' = sequence t.
Proof.
  cbn. intros [= <- <-]. cbn. unfold count, select_by_name, select_where; cbn.
  split; [pose proof (filter_length_split (name_is n) (rows t)); lia|].
  split; [|split; reflexivity].
  f_equal. induction (rows t) as [|r rs IH]; cbn; [reflexivity|].
  destruct (name_is n r) eqn:Hk; cbn; [exact IH|]. now rewrite Hk.
Qed.

(** X9. [DELETE FROM students WHERE gpa < ?] (Section 6) never removes a
    row whose gpa is NULL: the table being there and nothing failing from
    outside, the statement returns, and a row with a NULL gpa is in the
    table after it, whatever the bound. *)
Theorem delete_below_spares_null (g : float) w t r :
  working (conn w) = Some t ->
  undisturbed 1 w ->
  In r (rows t) ->
  gpa r = None ->
  exists info w' t',
    execute (DeleteWhereGpaBelow g) w = (inr info, w') /\
    working (conn w') = Some t' /\
    In r (rows t') /\
    Z.of_nat (length (rows t)) = Z.of_nat (length (rows t')) + rowcount info.
Proof.
  intros Hw Hf Hr Hnull.
  destruct (execute_on_rows (DeleteWhereGpaBelow g) w t
              (delete_where (fun r => sql_lt (gpa r) (bind_real g))) Hw Hf
              eq_refl eq_refl eq_refl eq_refl) as (w' & Hrun & Hw' & _).
  eexists; exists w'; eexists. split; [exact Hrun|]. split; [exact Hw'|].
  unfold delete_where, count; cbn. split.
  - apply filter_In. split; [exact Hr|]. now rewrite Hnull.
  - pose proof (filter_length_split (fun r => sql_lt (gpa r) (bind_real g)) (rows t)).
    lia.
Qed.

(** X18. With a bound that is not a number, which is bound as NULL, the
    same DELETE removes nothing: it returns, reports 0 rows and leaves the
    table as it was. *)
Theorem delete_below_nan_removes_nothing (g : float) w t :
  working (conn w) = Some t ->
  undisturbed 1 w ->
  PrimFloat.is_nan g = true ->
  exists info w',
    execute (DeleteWhereGpaBelow g) w = (inr info, w') /\
    working (conn w') = Some t /\
    rowcount info = 0.
Proof.
  intros Hw Hf Hnan.
  destruct (execute_on_rows (DeleteWhereGpaBelow g) w t
              (delete_where (fun r => sql_lt (gpa r) (bind_real g))) Hw Hf
              eq_refl eq_refl eq_refl eq_refl) as (w' & Hrun & Hw' & _).
  assert (Hno : forall rs : list student,
             List.filter (fun r => sql_lt (gpa r) (bind_real g)) rs = []).
  { unfold bind_real. rewrite Hnan.
    induction rs as [|r rs IH]; cbn; [reflexivity|]. now destruct (gpa r). }
  eexists; exists w'. split; [exact Hrun|].
  unfold delete_where, count in *; cbn in *.
  rewrite Hno. split; [|reflexivity].
  rewrite Hw'. rewrite (filter_none _ _ (Hno (rows t))). now destruct t.
Qed.

(** ** Section 11: the duplicate e-mail address *)

Lemma taken_email e t :
  In e (emails t) -> existsb (email_is e) (rows t) = true.
Proof.
  unfold emails. intros Hin. apply in_flat_map in Hin as (r & Hr & He).
  apply existsb_exists. exists r. split; [exact Hr|].
  unfold email_is. destruct (email r) as [e'|]; [|destruct He].
  destruct He as [->|[]]. apply String.eqb_refl.
Qed.

(** X6. When the table already holds alice@email.com and nothing fails
    from outside, the block of Section 11 catches the IntegrityError of
    its INSERT and prints its two lines; the commit inside the block is
    not reached. Table and file are as before, and the transaction that
    Python opened for the INSERT is still open. *)
Theorem duplicate_email_is_caught w t :
  working (conn w) = Some t ->
  In "alice@email.com" (emails t) ->
  next_rowid t <= int64_max ->
  undisturbed 1 w ->
  exists w',
    duplicate_email_example w = (inr tt, w') /\
    working (conn w') = Some t /\
    durable (conn w') = durable (conn w) /\
    in_transaction (conn w') = true /\
    log w' =
      (log w ++
       [ Executed (InsertStudent "Another Alice" "alice@email.com" 21 3.5);
         Printed (Heading "✗ Error: UNIQUE constraint failed: students.email");
         Printed (Heading "  (Email must be unique!)") ])%list.
Proof.
  intros Hw Hin Hmax Hf.
  apply taken_email in Hin. apply Z.ltb_ge in Hmax.
  destruct w as [[d tr] fs lg]. unfold undisturbed in Hf; cbn in Hf, Hw.
  unfold duplicate_email_example, try_except_integrity, bind, execute, commit,
    print, next_fault, set_conn, record_event, begin. cbn.
  rewrite Hw. cbn.
  destruct fs as [|[f|] fs]; cbn in *;
    try (now inversion Hf).
  all: unfold insert_student; rewrite Hmax, Hin; cbn.
  all: eexists; split; [reflexivity|]; cbn.
  all: rewrite <- ?app_assoc; cbn; repeat split; try reflexivity.
  all: unfold working; cbn; exact Hw.
Qed.

(** ** Section 2: a clean start *)

(** X10. CREATE TABLE students alone raises [table students already
    exists] on a file that has the table. After DROP TABLE IF EXISTS, as
    Section 2 runs it, it never does: with nothing failing from outside,
    Section 2 returns normally whatever the connection held, and leaves
    an empty table, committed to the file, whose rowids start again
    at 1. *)
Theorem section2_starts_clean w :
  undisturbed 3 w ->
  (forall t, working (conn w) = Some t ->
     fst (execute CreateTableStudents w) =
       inl (Sqlite3Error (TableAlreadyExists "students"))) /\
  exists w',
    section2 w = (inr tt, w') /\
    conn w' = connect (Some {| rows := []; sequence := 0 |}) /\
    next_rowid {| rows := []; sequence := 0 |} = 1.
Proof.
  intros Hf. split.
  - intros t Hw. destruct w as [[d tr] fs lg]. cbn in Hw.
    unfold execute, record_event; cbn. now rewrite Hw.
  - destruct w as [[d tr] fs lg]. unfold undisturbed in Hf; cbn in Hf.
    unfold section2, bind, execute, commit, next_fault, set_conn, record_event,
      in_transaction, write, do_commit, working; cbn.
    destruct tr as [db0|]; cbn;
      destruct fs as [|f1 [|f2 [|f3 fs]]]; cbn in *;
      repeat match goal with
             | H : Forall _ (_ :: _) |- _ => inversion H; clear H; subst
             end; cbn;
      eexists; repeat split; reflexivity.
Qed.

(** ** Section 3: six INSERTs and one commit *)

Ltac next_insert D E :=
  match goal with
  | |- context [execute ?s ?w] =>
      pose proof (execute_dml_durable s w eq_refl) as D;
      destruct (execute s w) as [[?e|?i] ?w] eqn:E; cbn [snd] in D;
      cbv beta iota; [congruence|]
  end.

Lemma fold_max_snoc (l : list Z) (x : Z) :
  fold_right Z.max 0 (l ++ [x]) = Z.max (fold_right Z.max 0 l) (Z.max x 0).
Proof. induction l as [|y l IH]; cbn; [lia|]. rewrite IH. lia. Qed.

Lemma largest_rowid_nonneg t : 0 <= largest_rowid t.
Proof.
  unfold largest_rowid. induction (map id (rows t)) as [|y l IH]; cbn; lia.
Qed.

(** After an INSERT the next rowid is one more. *)
Lemma next_rowid_inserted t n e a g :
  next_rowid {| rows := rows t ++ [inserted (next_rowid t) n e a g];
                sequence := next_rowid t |} = next_rowid t + 1.
Proof.
  pose proof (largest_rowid_nonneg t) as H0.
  unfold next_rowid at 1. unfold largest_rowid at 1. cbn [rows sequence].
  rewrite map_app. cbn [map id inserted]. rewrite fold_max_snoc.
  fold (largest_rowid t). unfold next_rowid in *. lia.
Qed.

(** One INSERT of the section, on a table that has received the rows
    [news] since the section began. *)
Lemma execute_insert_next n e a g w w' info t0 (news : list student) (q k : Z) :
  execute (InsertStudent n e a g) w = (inr info, w') ->
  working (conn w) = Some {| rows := rows t0 ++ news; sequence := q |} ->
  next_rowid {| rows := rows t0 ++ news; sequence := q |} = k ->
  working (conn w') =
    Some {| rows := rows t0 ++ (news ++ [inserted k n e a g]); sequence := k |} /\
  next_rowid {| rows := rows t0 ++ (news ++ [inserted k n e a g]); sequence := k |} =
    k + 1.
Proof.
  intros Hrun Hw Hk.
  apply execute_insert_inr in Hrun as (t & Ht & _ & Hw').
  rewrite Hw in Ht. injection Ht as <-.
  pose proof (next_rowid_inserted
                {| rows := rows t0 ++ news; sequence := q |} n e a g) as Hn.
  rewrite Hk in Hw', Hn. cbn [rows] in Hw', Hn.
  rewrite <- app_assoc in Hw', Hn. split; [exact Hw'|exact Hn].
Qed.

(** X2. Section 3 is all or nothing towards the file, whatever the table
    holds and whatever fails: if it raises (a UNIQUE violation, a failure
    from outside in any INSERT or in the commit), the file is as it was
    before the section; if it returns, no transaction is open and the file
    holds the rows the connection saw before the section, unchanged,
    followed by the six students with the values of the script, the
    default 1 for enrolled and the next six rowids in the order of the
    INSERTs. *)
Theorem section3_all_or_nothing w :
  match section3 w with
  | (inl _, w') => durable (conn w') = durable (conn w)
  | (inr _, w') =>
      transaction (conn w') = None /\
      exists t,
        working (conn w) = Some t /\
        durable (conn w') =
          Some {| rows :=
                    rows t ++
                    [ inserted (next_rowid t) "Alice Johnson" "alice@email.com" 20 3.8;
                      inserted (next_rowid t + 1) "Bob Smith" "bob@email.com" 22 3.5;
                      inserted (next_rowid t + 2) "Carol White" "carol@email.com" 21 3.9;
                      inserted (next_rowid t + 3) "David Brown" "david@email.com" 23 3.2;
                      inserted (next_rowid t + 4) "Eve Davis" "eve@email.com" 20 3.7;
                      inserted (next_rowid t + 5) "Frank Miller" "frank@email.com" 22 3.6 ];
                  sequence := next_rowid t + 5 |}
  end.
Proof.
  unfold section3, students_list. cbn [executemany]. unfold bind, ret.
  next_insert D1 E1. next_insert D2 E2. next_insert D3 E3.
  next_insert D4 E4. next_insert D5 E5. next_insert D6 E6.
  destruct (commit w5) as [[e|[]] w6] eqn:Ec.
  - apply commit_inl_conn in Ec. rewrite Ec. congruence.
  - apply commit_inr_durable in Ec as [Hd Hn]. split; [exact Hn|].
    pose proof E1 as E1'.
    apply execute_insert_inr in E1' as (t & Ht & _ & _).
    exists t. split; [exact Ht|].
    assert (Ht0 : working (conn w) =
                  Some {| rows := rows t ++ []; sequence := sequence t |})
      by (rewrite app_nil_r, Ht; now destruct t).
    assert (Hk0 : next_rowid {| rows := rows t ++ []; sequence := sequence t |} =
                  next_rowid t)
      by (rewrite app_nil_r; now destruct t).
    destruct (execute_insert_next _ _ _ _ _ _ _ _ _ _ _ E1 Ht0 Hk0) as [H1 K1].
    destruct (execute_insert_next _ _ _ _ _ _ _ _ _ _ _ E2 H1 K1) as [H2 K2].
    destruct (execute_insert_next _ _ _ _ _ _ _ _ _ _ _ E3 H2 K2) as [H3 K3].
    destruct (execute_insert_next _ _ _ _ _ _ _ _ _ _ _ E4 H3 K3) as [H4 K4].
    destruct (execute_insert_next _ _ _ _ _ _ _ _ _ _ _ E5 H4 K4) as [H5 K5].
    destruct (execute_insert_next _ _ _ _ _ _ _ _ _ _ _ E6 H5 K5) as [H6 _].
    rewrite Hd, H6. cbn [app].
    replace (next_rowid t + 1 + 1) with (next_rowid t + 2) by lia.
    replace (next_rowid t + 2 + 1) with (next_rowid t + 3) by lia.
    replace (next_rowid t + 3 + 1) with (next_rowid t + 4) by lia.
    replace (next_rowid t + 4 + 1) with (next_rowid t + 5) by lia.
    reflexivity.
Qed.

(** ** Section 8: a commit that fails *)

(** X17. When both UPDATEs of the transfer go through and the commit
    raises, the block treats it like a failed UPDATE: it rolls back, prints
    the error and the notice, and returns normally; the connection is
    outside any transaction and the file is as it was. *)
Theorem failed_commit_is_rolled_back (source destination : string)
  (amount : float) w t (e : sqlite_error) (fs : list (option sqlite_error)) :
  working (conn w) = Some t ->
  faults w = None :: None :: Some e :: fs ->
  transfer_operation source destination amount w =
    (inr tt,
     {| conn := do_rollback (conn w);
        faults := fs;
        log := log w ++ [ Executed (SubGpaWhereName amount source);
                          Executed (AddGpaWhereName amount destination);
                          Committed;
                          RolledBack;
                          Printed (TransactionFailed e);
                          Printed AllChangesRolledBack ] |}).
Proof.
  destruct w as [[d tr] fs0 lg]. cbn. intros Hw ->.
  run_script. destruct tr as [db|]; cbn in *; subst; cbn;
    rewrite <- ?app_assoc; reflexivity.
Qed.

End HelpsheetMoreFacts.

(** * helpsheet.py: the joins of Section 9 *)

Module JoinFacts.

Import Helpsheet HelpsheetMore.

Implicit Types (ss : list student) (cs : list course) (s : student) (c : course)
  (row : joined).

Lemma in_inner_join ss cs row :
  In row (inner_join ss cs) <->
  exists s c, In s ss /\ In c cs /\ enrolled_in s c = true /\ row = join_row s c.
Proof.
  unfold inner_join. rewrite in_flat_map. split.
  - intros (s & Hs & Hrow). apply in_map_iff in Hrow as (c & <- & Hc).
    apply filter_In in Hc as [Hc He]. now exists s, c.
  - intros (s & c & Hs & Hc & He & ->). exists s. split; [exact Hs|].
    apply in_map. now apply filter_In.
Qed.

Lemma filter_nil_iff s cs :
  List.filter (enrolled_in s) cs = [] <->
  forall c, In c cs -> enrolled_in s c = false.
Proof.
  induction cs as [|c cs IH]; cbn; [tauto|].
  destruct (enrolled_in s c) eqn:He; split.
  - discriminate.
  - intros H. specialize (H c (or_introl eq_refl)). congruence.
  - intros H c' [<-|Hc']; [exact He|]. now apply IH.
  - intros H. apply IH. intros c' Hc'. apply H. now right.
Qed.

(** X11. The rows of the LEFT JOIN are the rows of the INNER JOIN, which
    pair a student with each course whose student_id is the student's id,
    together with one row of NULLs for each student that no course refers
    to. A course whose student_id matches no student is in neither. *)
Theorem left_join_rows ss cs row :
  In row (left_join ss cs) <->
  (exists s c, In s ss /\ In c cs /\ student_id c = Some (id s) /\
               row = (name s, course_name c, grade c)) \/
  (exists s, In s ss /\ (forall c, In c cs -> student_id c <> Some (id s)) /\
             row = (name s, None, None)).
Proof.
  assert (Hen : forall s c, enrolled_in s c = true <-> student_id c = Some (id s)).
  { intros s c. unfold enrolled_in. destruct (student_id c) as [i|].
    - rewrite Z.eqb_eq. split; [now intros ->|now intros [= ->]].
    - split; discriminate. }
  unfold left_join. rewrite in_flat_map. split.
  - intros (s & Hs & Hrow).
    destruct (List.filter (enrolled_in s) cs) as [|c0 cs0] eqn:Hf.
    + right. exists s. split; [exact Hs|]. split.
      * intros c Hc Heq. apply Hen in Heq.
        rewrite (proj1 (filter_nil_iff s cs) Hf c Hc) in Heq. discriminate.
      * now destruct Hrow as [<-|[]].
    + left. apply in_map_iff in Hrow as (c & <- & Hc).
      rewrite <- Hf in Hc. apply filter_In in Hc as [Hc He].
      exists s, c. repeat split; try assumption. now apply Hen.
  - intros [(s & c & Hs & Hc & He & ->) | (s & Hs & Hnone & ->)].
    + exists s. split; [exact Hs|].
      assert (Hin : In c (List.filter (enrolled_in s) cs))
        by (apply filter_In; split; [exact Hc|now apply Hen]).
      destruct (List.filter (enrolled_in s) cs) as [|c0 cs0]; [destruct Hin|].
      now apply (in_map (join_row s)).
    + exists s. split; [exact Hs|].
      assert (Hf : List.filter (enrolled_in s) cs = []).
      { apply filter_nil_iff. intros c Hc.
        destruct (enrolled_in s c) eqn:He; [|reflexivity].
        apply Hen in He. now destruct (Hnone c Hc). }
      rewrite Hf. now left.
Qed.

Lemma length_flat_map_split {A B C : Type} (f : A -> list B) (g : A -> list C)
  (h : A -> bool) :
  (forall a, length (f a) = (length (g a) + if h a then 1 else 0)%nat) ->
  forall l, length (flat_map f l) =
            (length (flat_map g l) + length (List.filter h l))%nat.
Proof.
  intros H l. induction l as [|a l IH]; cbn [flat_map List.filter]; [reflexivity|].
  rewrite !length_app, IH, H. destruct (h a); cbn [length]; lia.
Qed.

(** X12. The LEFT JOIN has a row for every student, and has as many rows
    as the INNER JOIN plus the number of students without a course. *)
Theorem left_join_counts ss cs :
  (forall s, In s ss -> exists course g, In (name s, course, g) (left_join ss cs)) /\
  length (left_join ss cs) =
    (length (inner_join ss cs) +
     length (List.filter (fun s => match List.filter (enrolled_in s) cs with
                                   | [] => true
                                   | _ => false
                                   end) ss))%nat.
Proof.
  split.
  - intros s Hs.
    destruct (List.filter (enrolled_in s) cs) as [|c0 cs0] eqn:Hf.
    + exists None, None. unfold left_join. apply in_flat_map.
      exists s. split; [exact Hs|]. rewrite Hf. now left.
    + exists (course_name c0), (grade c0). unfold left_join. apply in_flat_map.
      exists s. split; [exact Hs|]. rewrite Hf. now left.
  - unfold left_join, inner_join.
    apply length_flat_map_split. intros s.
    destruct (List.filter (enrolled_in s) cs); cbn; lia.
Qed.

Lemma append_is_not_no_courses (c x : string) :
  (c ++ ": " ++ x)%string <> "No courses".
Proof.
  intros H.
  do 10 (destruct c as [|? c]; cbn in H;
         [discriminate H | injection H as _ H]).
  destruct c; discriminate H.
Qed.

(** X13. The report of the LEFT JOIN writes "No courses" exactly for a row
    whose course name is NULL or the empty string: a student without a
    course, and also a course that was stored with an empty name. *)
Theorem no_courses_line (course g : option string) :
  course_info course g = "No courses" <-> course = None \/ course = Some "".
Proof.
  split.
  - destruct course as [[|a c]|]; [now right| |now left].
    intros H. exfalso.
    exact (append_is_not_no_courses (String a c) (py_str g) H).
  - now intros [->| ->].
Qed.

(** The two joins on the tables of the script. *)
Example joins_of_the_script :
  inner_join (rows students_at_section8) courses_of_script =
    [ ("Alice Johnson", Some "Math 101", Some "A");
      ("Alice Johnson", Some "English 101", Some "B");
      ("Bob Smith", Some "Math 101", Some "A");
      ("Carol White", Some "History 101", Some "B") ] /\
  map left_join_line (left_join (rows students_at_section8) courses_of_script) =
    [ "Alice Johnson - Math 101: A";
      "Alice Johnson - English 101: B";
      "Bob Smith - Math 101: A";
      "Carol White - History 101: B";
      "David Brown - No courses";
      "Eve Davis - No courses";
      "Frank Miller - No courses" ].
Proof. split; reflexivity. Qed.

End JoinFacts.

(** * main.py and testtable.py: what a run leaves in the file *)

Module UniversityMoreFacts.

Import Sqlite University UniversityFacts.

Implicit Types (db : database).

(** X14. CREATE TABLE IF NOT EXISTS never touches a table that is there:
    whatever definition a table of the file has, under whatever name, it
    has the same after a run of main.py or of testtable.py. *)
Theorem existing_tables_are_left_alone db (k : string) :
  is_Some (db !! k) ->
  snd (run main db) !! k = db !! k /\
  snd (run testtable db) !! k = db !! k.
Proof.
  intros Hk. rewrite run_main, run_testtable; cbn [snd]. split.
  - rewrite create_leaves by now apply create_keeps.
    now apply create_leaves.
  - now apply create_leaves.
Qed.

(** X15. testtable.py raises nothing, leaves [colleges] in the file, and
    run a second time raises nothing and leaves the file as the first run
    left it. *)
Theorem testtable_idempotent db :
  fst (run testtable db) = None /\
  is_Some (snd (run testtable db) !! "colleges") /\
  run testtable (snd (run testtable db)) = (None, snd (run testtable db)).
Proof.
  rewrite !run_testtable; cbn [fst snd].
  split; [reflexivity|]. split; [apply (create_creates colleges)|].
  now rewrite create_idempotent.
Qed.

(** X16. main.py raises before it reaches its commit, yet what it created
    before is in the file, because CREATE TABLE runs outside a transaction
    and is written at once: after a run [colleges] and [departments] are
    in the file, and no table that was in the file is lost. *)
Theorem main_leaves_two_tables db :
  fst (run main db) = Some (Sqlite3Error (SyntaxErrorNear "PhoneNumber")) /\
  is_Some (snd (run main db) !! "colleges") /\
  is_Some (snd (run main db) !! "departments") /\
  (forall k : string, is_Some (db !! k) -> is_Some (snd (run main db) !! k)).
Proof.
  rewrite run_main; cbn [fst snd]. split; [reflexivity|]. split; [|split].
  - apply create_keeps. apply (create_creates colleges).
  - apply (create_creates departments).
  - intros k Hk. now do 2 apply create_keeps.
Qed.

End UniversityMoreFacts.

(** * The further properties at concrete inputs *)

Module MoreWitnesses.

Import Sqlite Helpsheet HelpsheetMore HelpsheetMoreFacts University UniversityMoreFacts.

Lemma uncommitted_changes_stay_out_of_the_file_witness :
  (option_map (fun t => map name (rows t))
     (working (conn (snd (executemany students_list
                            (with_table {| rows := []; sequence := 0 |} []))))) =
     Some ["Bob Smith"; "Carol White"; "David Brown"; "Eve Davis"] /\
   durable (conn (with_table {| rows := []; sequence := 0 |} [])) =
     Some {| rows := []; sequence := 0 |}) /\
  durable (conn (snd (executemany students_list
                        (with_table {| rows := []; sequence := 0 |} [])))) =
    durable (conn (with_table {| rows := []; sequence := 0 |} [])) /\
  working (conn (snd (rollback (snd (executemany students_list
                                      (with_table {| rows := []; sequence := 0 |} [])))))) =
    durable (conn (with_table {| rows := []; sequence := 0 |} [])) /\
  durable (conn (snd (close (snd (executemany students_list
                                    (with_table {| rows := []; sequence := 0 |} [])))))) =
    durable (conn (with_table {| rows := []; sequence := 0 |} [])).
Proof.
  split; [split; reflexivity|].
  apply (uncommitted_changes_stay_out_of_the_file students_list
           (with_table {| rows := []; sequence := 0 |} [])).
  repeat constructor.
Defined.

Lemma execute_keeps_keys_witness :
  keys_hold
    (durable (conn (snd (execute (InsertStudent "Grace Hall" "grace@email.com" 21 3.4)
                           (at_section8 []))))) /\
  (forall info w',
     execute (InsertStudent "Grace Hall" "grace@email.com" 21 3.4) (at_section8 []) =
       (inr info, w') ->
     keys_hold (working (conn w'))).
Proof.
  apply (execute_keeps_keys (InsertStudent "Grace Hall" "grace@email.com" 21 3.4)
           (at_section8 [])).
  - cbn. split; [|split].
    + apply (bool_decide_unpack _). vm_compute. reflexivity.
    + apply (bool_decide_unpack _). vm_compute. reflexivity.
    + repeat constructor; cbn; lia.
  - cbn. split; [|split].
    + apply (bool_decide_unpack _). vm_compute. reflexivity.
    + apply (bool_decide_unpack _). vm_compute. reflexivity.
    + repeat constructor; cbn; lia.
Defined.

Lemma rowid_never_reused_witness :
  exists i,
    lastrowid {| rowcount := 1; lastrowid := Some 8 |} = Some i /\
    Forall (fun r => id r < i) (rows students_at_section8).
Proof.
  apply (rowid_never_reused (name_is "Frank Miller") "Grace Hall" "grace@email.com"
           21 3.4 students_at_section8
           {| rows := rows (fst (delete_where (name_is "Frank Miller") students_at_section8)) ++
                      [ {| id := 8; name := "Grace Hall"; email := Some "grace@email.com";
                           age := Some 21; gpa := Some 3.4%float; enrolled := Some 1 |} ];
              sequence := 8 |}).
  - cbn. split; [|split].
    + apply (bool_decide_unpack _). vm_compute. reflexivity.
    + apply (bool_decide_unpack _). vm_compute. reflexivity.
    + repeat constructor; cbn; lia.
  - vm_compute. reflexivity.
Defined.

Lemma insert_then_delete_by_name_witness :
  delete_where (name_is "Test Student")
    {| rows := rows students_at_section8 ++
               [ {| id := 8; name := "Test Student"; email := Some "test@email.com";
                    age := Some 19; gpa := Some 2.5%float; enrolled := Some 1 |} ];
       sequence := 8 |} =
    ({| rows := rows students_at_section8;
        sequence := next_rowid students_at_section8 |},
     {| rowcount := 1; lastrowid := None |}).
Proof.
  apply (insert_then_delete_by_name "Test Student" "test@email.com" 19 2.5
           students_at_section8 _ {| rowcount := 1; lastrowid := Some 8 |}).
  - reflexivity.
  - vm_compute. reflexivity.
Defined.

Lemma duplicate_email_is_caught_witness :
  exists w',
    duplicate_email_example (at_section8 []) = (inr tt, w') /\
    working (conn w') = Some students_at_section8 /\
    durable (conn w') = durable (conn (at_section8 [])) /\
    in_transaction (conn w') = true /\
    log w' =
      (log (at_section8 []) ++
       [ Executed (InsertStudent "Another Alice" "alice@email.com" 21 3.5);
         Printed (Heading "✗ Error: UNIQUE constraint failed: students.email");
         Printed (Heading "  (Email must be unique!)") ])%list.
Proof.
  apply (duplicate_email_is_caught (at_section8 []) students_at_section8).
  - reflexivity.
  - cbn. now left.
  - vm_compute. discriminate.
  - constructor.
Defined.

Lemma update_by_name_witness :
  (balances "Bob Smith" (Some students_at_section8) = [Some 3.9%float] /\
   balances "Zed" (Some students_at_section8) = []) /\
  (exists info w' t',
     execute (SetGpaWhereName 3.5 "Bob Smith") (at_section8 []) = (inr info, w') /\
     working (conn w') = Some t' /\
     durable (conn w') = durable (conn (at_section8 [])) /\
     rowcount info = Z.of_nat (length (balances "Bob Smith" (Some students_at_section8))) /\
     balances "Bob Smith" (Some t') =
       map (fun _ => real_affinity (bind_real 3.5))
           (balances "Bob Smith" (Some students_at_section8)) /\
     List.filter (fun r => negb (name_is "Bob Smith" r)) (rows t') =
       List.filter (fun r => negb (name_is "Bob Smith" r)) (rows students_at_section8) /\
     map id (rows t') = map id (rows students_at_section8) /\
     (balances "Bob Smith" (Some students_at_section8) = [] ->
      t' = students_at_section8 /\ rowcount info = 0)) /\
  (exists info w' t',
     execute (SetGpaWhereName 3.5 "Zed") (at_section8 []) = (inr info, w') /\
     working (conn w') = Some t' /\
     durable (conn w') = durable (conn (at_section8 [])) /\
     rowcount info = Z.of_nat (length (balances "Zed" (Some students_at_section8))) /\
     balances "Zed" (Some t') =
       map (fun _ => real_affinity (bind_real 3.5))
           (balances "Zed" (Some students_at_section8)) /\
     List.filter (fun r => negb (name_is "Zed" r)) (rows t') =
       List.filter (fun r => negb (name_is "Zed" r)) (rows students_at_section8) /\
     map id (rows t') = map id (rows students_at_section8) /\
     (balances "Zed" (Some students_at_section8) = [] ->
      t' = students_at_section8 /\ rowcount info = 0)).
Proof.
  split; [split; reflexivity|]. split.
  - apply (update_by_name 3.5 "Bob Smith" (at_section8 []) students_at_section8).
    + reflexivity.
    + constructor.
  - apply (update_by_name 3.5 "Zed" (at_section8 []) students_at_section8).
    + reflexivity.
    + constructor.
Defined.

Lemma delete_by_name_witness :
  Z.of_nat (length (rows students_at_section8)) =
    Z.of_nat (length (rows (fst (delete_where (name_is "Eve Davis")
                                   students_at_section8)))) +
    rowcount {| rowcount := 1; lastrowid := None |} /\
  select_by_name "Eve Davis"
    (Some (fst (delete_where (name_is "Eve Davis") students_at_section8))) = inr [] /\
  rows (fst (delete_where (name_is "Eve Davis") students_at_section8)) =
    List.filter (fun r => negb (name_is "Eve Davis" r)) (rows students_at_section8) /\
  sequence (fst (delete_where (name_is "Eve Davis") students_at_section8)) =
    sequence students_at_section8.
Proof.
  apply (delete_by_name "Eve Davis" students_at_section8).
  reflexivity.
Defined.

Lemma delete_below_spares_null_witness :
  (gpa {| id := 8; name := "Grace Hall"; email := Some "grace@email.com";
          age := Some 21; gpa := None; enrolled := Some 1 |} = None /\
   fst (execute (DeleteWhereGpaBelow 3.5) (with_table students_with_null_gpa [])) =
     inr {| rowcount := 1; lastrowid := None |}) /\
  exists info w' t',
    execute (DeleteWhereGpaBelow 3.5) (with_table students_with_null_gpa []) =
      (inr info, w') /\
    working (conn w') = Some t' /\
    In {| id := 8; name := "Grace Hall"; email := Some "grace@email.com";
          age := Some 21; gpa := None; enrolled := Some 1 |} (rows t') /\
    Z.of_nat (length (rows students_with_null_gpa)) =
      Z.of_nat (length (rows t')) + rowcount info.
Proof.
  split; [split; reflexivity|].
  apply (delete_below_spares_null 3.5 (with_table students_with_null_gpa [])
           students_with_null_gpa).
  - reflexivity.
  - constructor.
  - cbn. do 6 right. now left.
  - reflexivity.
Defined.

Lemma delete_below_nan_removes_nothing_witness :
  exists info w',
    execute (DeleteWhereGpaBelow nan) (at_section8 []) = (inr info, w') /\
    working (conn w') = Some students_at_section8 /\
    rowcount info = 0.
Proof.
  apply (delete_below_nan_removes_nothing nan (at_section8 []) students_at_section8).
  - reflexivity.
  - constructor.
  - reflexivity.
Defined.

Lemma section2_starts_clean_witness :
  (forall t, working (conn (at_section8 [])) = Some t ->
     fst (execute CreateTableStudents (at_section8 [])) =
       inl (Sqlite3Error (TableAlreadyExists "students"))) /\
  exists w',
    section2 (at_section8 []) = (inr tt, w') /\
    conn w' = connect (Some {| rows := []; sequence := 0 |}) /\
    next_rowid {| rows := []; sequence := 0 |} = 1.
Proof.
  apply (section2_starts_clean (at_section8 [])).
  constructor.
Defined.

Lemma failed_commit_is_rolled_back_witness :
  transfer_operation "Alice Johnson" "Bob Smith" 0.2
    (at_section8 [None; None; Some (ResultCode 5)]) =
    (inr tt,
     {| conn := do_rollback (conn (at_section8 [None; None; Some (ResultCode 5)]));
        faults := [];
        log := log (at_section8 [None; None; Some (ResultCode 5)]) ++
               [ Executed (SubGpaWhereName 0.2 "Alice Johnson");
                 Executed (AddGpaWhereName 0.2 "Bob Smith");
                 Committed;
                 RolledBack;
                 Printed (TransactionFailed (ResultCode 5));
                 Printed AllChangesRolledBack ] |}).
Proof.
  apply (failed_commit_is_rolled_back "Alice Johnson" "Bob Smith" 0.2
           (at_section8 [None; None; Some (ResultCode 5)]) students_at_section8).
  - reflexivity.
  - reflexivity.
Defined.

Lemma existing_tables_are_left_alone_witness :
  snd (run main (<["colleges" := [Column "Name" "TEXT"]]> ∅)) !! "colleges" =
    (<["colleges" := [Column "Name" "TEXT"]]> ∅ : database) !! "colleges" /\
  snd (run testtable (<["colleges" := [Column "Name" "TEXT"]]> ∅)) !! "colleges" =
    (<["colleges" := [Column "Name" "TEXT"]]> ∅ : database) !! "colleges".
Proof.
  apply (existing_tables_are_left_alone
           (<["colleges" := [Column "Name" "TEXT"]]> ∅) "colleges").
  exists [Column "Name" "TEXT"]. vm_compute. reflexivity.
Defined.

End MoreWitnesses.
